(** * AgentCortex MCP bridge: a shallow embedding of its two servers

    The repository ships two tool servers with the same catalogue:
    - the hosted-API client of [src/index.ts] (module [Remote]), whose
      handlers talk to a remote service through [AgentCortexAPIClient], and
    - the self-hosted server of [test-mcp.js] (module [Direct]), whose
      handlers query a relational store directly.

    Promises are modelled by their settlement ([outcome]); the closure
    variable [currentProjectId] and the outside world are threaded through
    a state-and-exception monad in which state changes survive a throw, as
    they do in JavaScript. *)

From Stdlib Require Import String Ascii List ZArith Bool Lia Arith.
From Stdlib Require Import Sorting.Permutation Sorting.Sorted.
From Stdlib Require Import DecimalString.
Import ListNotations.
Local Open Scope list_scope.
Local Open Scope string_scope.
Set Warnings "-register-all".

(** ** JavaScript values and settlements *)

Module Js.

(** What a [throw] (or a rejected promise) carries: an [Error] object with
    its message, or some other value, kept by its string conversion. *)
Inductive thrown : Type :=
| JsError (message : string)
| NonError (shown : string).

(** A settled promise, or the result of running a block that may throw. *)
Inductive outcome (A : Type) : Type :=
| Fulfilled (a : A)
| Rejected (t : thrown).
Arguments Fulfilled {A} a.
Arguments Rejected {A} t.

Definition fulfilled {A} (o : outcome A) : Prop := exists v, o = Fulfilled v.

(** [error instanceof Error] *)
Definition instanceof_Error (t : thrown) : bool :=
  match t with JsError _ => true | NonError _ => false end.

(** [`${error.message}`]: a value that is no [Error] has no [message]. *)
Definition message_of (t : thrown) : string :=
  match t with JsError m => m | NonError _ => "undefined" end.

(** [`${error}`] *)
Definition show_thrown (t : thrown) : string :=
  match t with JsError m => "Error: " ++ m | NonError s => s end.

(** Truthiness of a string: only the empty string is falsy. *)
Definition truthy (s : string) : bool :=
  match s with EmptyString => false | String _ _ => true end.

(** Truthiness of a [string | null | undefined] value. *)
Definition truthy_opt (o : option string) : bool :=
  match o with Some s => truthy s | None => false end.

(** [a || b] on strings. *)
Definition or_str (a : option string) (b : string) : string :=
  match a with
  | Some s => if truthy s then s else b
  | None => b
  end.

(** The data that crosses [JSON.stringify]. *)
Inductive json : Type :=
| JUndefined
| JNull
| JBool (b : bool)
| JNum (z : Z)
| JStr (s : string)
| JArr (items : list json)
| JObj (fields : list (string * json)).

Definition of_opt_str (o : option string) : json :=
  match o with Some s => JStr s | None => JUndefined end.

Definition of_opt_num (o : option Z) : json :=
  match o with Some z => JNum z | None => JUndefined end.

Fixpoint lookup {A : Type} (k : string) (l : list (string * A)) : option A :=
  match l with
  | [] => None
  | (k', v) :: rest => if String.eqb k k' then Some v else lookup k rest
  end.

(** [`${n}`] for a natural number, and for an integer. *)
Definition show_nat (n : nat) : string :=
  NilZero.string_of_uint (Nat.to_uint n).

Definition show_Z (z : Z) : string :=
  NilZero.string_of_int (Z.to_int z).

(** The double quote of a template literal. *)
Definition dq : string := String (ascii_of_nat 34) EmptyString.

(** The line feed of a template literal. *)
Definition nl : string := String (ascii_of_nat 10) EmptyString.

(** The response envelope every tool answers with:
    [{ content: [{ type: 'text', text }] }]. *)
Record ContentItem : Type := { type : string; text : string }.
Record Envelope : Type := { content : list ContentItem }.

Definition text_envelope (t : string) : Envelope :=
  {| content := [ {| type := "text"; text := t |} ] |}.

(** The [catch (error) { return { content: [...`Error: ${error.message}`] } }]
    block shared by the guarded handlers. *)
Definition error_envelope (t : thrown) : Envelope :=
  text_envelope ("Error: " ++ message_of t).

End Js.
Import Js.

(** ** Computations with state that may throw *)

Module Eff.

(** A computation over a state [S]; the state reached before a throw is
    kept, as an assignment made before a JavaScript [throw] is. *)
Definition M (S A : Type) : Type := S -> outcome A * S.

Definition ret {S A} (a : A) : M S A := fun m => (Fulfilled a, m).

Definition throw {S A} (t : thrown) : M S A := fun m => (Rejected t, m).

Definition bind {S A C} (c : M S A) (k : A -> M S C) : M S C :=
  fun m =>
    match c m with
    | (Fulfilled a, m') => k a m'
    | (Rejected t, m') => (Rejected t, m')
    end.

(** [try { c } catch (error) { h error }] *)
Definition try_catch {S A} (c : M S A) (h : thrown -> M S A) : M S A :=
  fun m =>
    match c m with
    | (Fulfilled a, m') => (Fulfilled a, m')
    | (Rejected t, m') => h t m'
    end.

(** A settlement read inside a computation. *)
Definition settle {S A} (o : outcome A) : M S A := fun m => (o, m).

(** The [catch (error) { return { content: [...] } }] block of a guarded
    handler. *)
Definition guarded {S} (c : M S Envelope) : M S Envelope :=
  try_catch c (fun error => ret (error_envelope error)).

End Eff.
Import Eff.

Declare Scope eff_scope.
Notation "x <- c ;; k" := (bind c (fun x => k))
  (at level 61, c at next level, right associativity) : eff_scope.
Notation "c ;;; k" := (bind c (fun _ => k))
  (at level 61, right associativity) : eff_scope.
Local Open Scope eff_scope.

(** ** Parameter schemas (zod) *)

Module Zod.

(** [z.number().min(lo).max(hi)] on a supplied number; the numbers of an
    argument bag are taken to be integers. *)
Definition number_min_max (lo hi : Z) (x : Z) : bool :=
  (lo <=? x)%Z && (x <=? hi)%Z.

(** [z.string().min(1)] *)
Definition string_min1 (s : string) : bool := truthy s.

(** The result of parsing an argument bag against a schema. *)
Inductive parsed (A : Type) : Type :=
| Valid (a : A)
| ValidationError.
Arguments Valid {A} a.
Arguments ValidationError {A}.

(** [.optional()]: an absent value passes and stays absent. *)
Definition optional {A} (check : A -> bool) (x : option A) : parsed (option A) :=
  match x with
  | None => Valid None
  | Some v => if check v then Valid (Some v) else ValidationError
  end.

(** [.default(d)]: an absent value passes and becomes [d]. *)
Definition with_default {A} (check : A -> bool) (d : A) (x : option A) : parsed A :=
  match x with
  | None => Valid d
  | Some v => if check v then Valid v else ValidationError
  end.

(** What the protocol library's dispatcher does with a call: parse the
    argument bag against the tool's schema, and run the handler on the
    typed arguments only when parsing succeeded. *)
Inductive dispatched (R : Type) : Type :=
| Handled (r : R)
| Refused.
Arguments Handled {R} r.
Arguments Refused {R}.

Definition dispatch {A R} (p : parsed A) (handler : A -> R) : dispatched R :=
  match p with
  | Valid a => Handled (handler a)
  | ValidationError => Refused
  end.

End Zod.

(** ** The hosted-API server ([src/index.ts]) *)

Module Remote.

(** *** Wire data *)

(** An entity object of the API (project, memory, task): its [id], which
    the program reads as a string, and its other attributes. An absent
    or empty [id] is the empty string; both are falsy. *)
Record Entity : Type := { id : string; attrs : list (string * json) }.

(** [e.k] for an attribute other than [id]. *)
Definition attr (e : Entity) (k : string) : json :=
  match lookup k (attrs e) with Some j => j | None => JUndefined end.

(** An object that wraps entities under named fields, as in
    [{ project: ... }], [{ projects: [...] }], [{ memories: [...] }] or
    the failure body [{ message: ... }]; an absent or null field is
    [None]. *)
Record Wrapper : Type := {
  project : option Entity;
  projects : option (list Entity);
  memories : option (list Entity);
  message : option string
}.

(** A parsed response body. *)
Inductive Payload : Type :=
| PNull
| PEntity (e : Entity)
| PArray (es : list Entity)
| PWrapper (w : Wrapper).

(** What [fetch] resolves to; [json_body] is the settlement of
    [response.json()]. *)
Record Response : Type := {
  status : nat;
  statusText : string;
  json_body : outcome Payload
}.

(** [response.ok] *)
Definition ok (r : Response) : bool :=
  ((200 <=? status r)%nat && (status r <=? 299)%nat)%bool.

Record Request : Type := {
  url : string;
  method : string;
  headers : list (string * string);
  body : option string
}.

Definition TypeError (what : string) : thrown :=
  JsError ("Cannot read properties of null (reading '" ++ what ++ "')").

Definition not_a_function (what : string) : thrown :=
  JsError (what ++ " is not a function").

(** [response.project] *)
Definition prop_project (v : Payload) : outcome (option Entity) :=
  match v with
  | PNull => Rejected (TypeError "project")
  | PWrapper w => Fulfilled (project w)
  | PEntity _ | PArray _ => Fulfilled None
  end.

(** [response.project || response] *)
Definition project_or_self (v : Payload) : outcome Payload :=
  match v with
  | PNull => Rejected (TypeError "project")
  | PWrapper w =>
      match project w with
      | Some p => Fulfilled (PEntity p)
      | None => Fulfilled v
      end
  | PEntity _ | PArray _ => Fulfilled v
  end.

(** [response.projects || response]; an array is truthy even when empty. *)
Definition projects_or_self (v : Payload) : outcome Payload :=
  match v with
  | PNull => Rejected (TypeError "projects")
  | PWrapper w =>
      match projects w with
      | Some ps => Fulfilled (PArray ps)
      | None => Fulfilled v
      end
  | PEntity _ | PArray _ => Fulfilled v
  end.

(** [response.memories || response] *)
Definition memories_or_self (v : Payload) : outcome Payload :=
  match v with
  | PNull => Rejected (TypeError "memories")
  | PWrapper w =>
      match memories w with
      | Some ms => Fulfilled (PArray ms)
      | None => Fulfilled v
      end
  | PEntity _ | PArray _ => Fulfilled v
  end.

(** [error.message] *)
Definition prop_message (v : Payload) : outcome (option string) :=
  match v with
  | PNull => Rejected (TypeError "message")
  | PWrapper w => Fulfilled (message w)
  | PEntity _ | PArray _ => Fulfilled None
  end.

(** [x.id] on a value that is not null. *)
Definition prop_id (v : Payload) : outcome json :=
  match v with
  | PNull => Rejected (TypeError "id")
  | PEntity e => Fulfilled (JStr (id e))
  | PArray _ | PWrapper _ => Fulfilled JUndefined
  end.

(** [x.k] for an attribute, on a value that is not null. *)
Definition prop_attr (k : string) (v : Payload) : json :=
  match v with
  | PEntity e => attr e k
  | _ => JUndefined
  end.

(** [`${j}`] for the values a template meets here. *)
Definition show_json (j : json) : string :=
  match j with
  | JUndefined => "undefined"
  | JNull => "null"
  | JBool true => "true"
  | JBool false => "false"
  | JNum z => show_Z z
  | JStr s => s
  | JArr _ => ""
  | JObj _ => "[object Object]"
  end.

(** [xs.map(f)]: only an array has [map]. *)
Definition array_map (what : string) (f : Entity -> json) (v : Payload)
  : outcome json :=
  match v with
  | PArray es => Fulfilled (JArr (List.map f es))
  | PNull => Rejected (TypeError "map")
  | PEntity _ | PWrapper _ => Rejected (not_a_function (what ++ ".map"))
  end.

(** *** The world outside the process *)

(** The hosted service, as the process sees it: a state of its own and an
    answer to every request, which is a response or a transport failure.
    [JSON_stringify indent j] is [JSON.stringify(j)] when [indent] is
    [None] and [JSON.stringify(j, null, n)] when it is [Some n]. *)
Class Backend : Type := {
  W : Type;
  net : Request -> W -> outcome Response * W;
  apiKey : string;
  apiUrl : string;
  JSON_stringify : option nat -> json -> string
}.

(** The state a tool call runs in: the closure variable
    [currentProjectId], the service, and a record of the traffic --
    every request issued ([sent]), those whose settlement some [await]
    waited for ([awaited]), and the promises left detached, with their
    final settlement ([detached]). *)
Record Machine `{Backend} : Type := {
  currentProjectId : option string;
  world : W;
  sent : list Request;
  awaited : list Request;
  detached : list (outcome (option Response))
}.

Section Client.
Context `{B : Backend}.

Definition M (A : Type) : Type := Eff.M Machine A.

Definition get_currentProjectId : M (option string) :=
  fun m => (Fulfilled (currentProjectId m), m).

Definition set_currentProjectId (v : option string) : M unit :=
  fun m =>
    (Fulfilled tt,
     {| currentProjectId := v; world := world m; sent := sent m;
        awaited := awaited m; detached := detached m |}).

(** [await fetch(url, init)] *)
Definition fetch (req : Request) : M Response :=
  fun m =>
    let (r, w') := net req (world m) in
    (r, {| currentProjectId := currentProjectId m; world := w';
           sent := (sent m ++ [req])%list;
           awaited := (awaited m ++ [req])%list;
           detached := detached m |}).

(** [p.catch(() => {})]: a rejection becomes a fulfilment with
    [undefined]. *)
Definition catch_ignore (r : outcome Response) : outcome (option Response) :=
  match r with
  | Fulfilled resp => Fulfilled (Some resp)
  | Rejected _ => Fulfilled None
  end.

(** [fetch(url, init).catch(() => {})] as a statement: the request
    leaves, nothing waits for it. The service is taken to receive it
    at once. *)
Definition fetch_detached (req : Request) : M unit :=
  fun m =>
    let (r, w') := net req (world m) in
    (Fulfilled tt,
     {| currentProjectId := currentProjectId m; world := w';
        sent := (sent m ++ [req])%list; awaited := awaited m;
        detached := (detached m ++ [catch_ignore r])%list |}).

End Client.

(** *** [AgentCortexAPIClient] *)

Section ApiClient.
Context `{B : Backend}.

Definition auth_headers : list (string * string) :=
  [ ("Authorization", "Bearer " ++ apiKey);
    ("Content-Type", "application/json") ].

(** The request [trackUsage] hands to [fetch]. *)
Definition usage_request (endpoint method : string) : Request :=
  {| url := apiUrl ++ "/usage/track";
     method := "POST";
     headers := auth_headers;
     body := Some (JSON_stringify None
               (JObj [("endpoint", JStr endpoint); ("method", JStr method)])) |}.

(** [trackUsage]: an [async] function without an [await] of its own;
    its promise is fulfilled as soon as the tracking request has been
    handed to [fetch]. *)
Definition trackUsage (endpoint method : string) : M unit :=
  fetch_detached (usage_request endpoint method).

(** The request [request] hands to [fetch]. *)
Definition api_request (method endpoint : string) (body : option json)
  : Request :=
  {| url := apiUrl ++ endpoint;
     method := method;
     headers := auth_headers;
     body := option_map (JSON_stringify None) body |}.

(** The failure message of a response that is not [ok]. *)
Definition error_message_of (response : Response) : string :=
  let errorMessage :=
    "API request failed: " ++ show_nat (status response) ++ " "
      ++ statusText response in
  match json_body response with
  | Fulfilled error =>
      match prop_message error with
      | Fulfilled msg => or_str msg errorMessage
      | Rejected _ => errorMessage
      end
  | Rejected _ => errorMessage
  end.

(** [request]. The [try] block runs up to [return response.json()];
    that promise is returned without an [await], so its settlement is
    the call's and the [catch] does not see it. *)
Definition request (method endpoint : string) (body : option json)
  : M Payload :=
  response <-
    try_catch
      (response <- fetch (api_request method endpoint body) ;;
       if negb (ok response)
       then throw (JsError (error_message_of response))
       else trackUsage endpoint method ;;; ret response)
      (fun error =>
         if instanceof_Error error then throw error
         else throw (JsError ("Network error: " ++ show_thrown error))) ;;
  settle (json_body response).

(** What the [catch] block of [request] rethrows. *)
Definition rethrown (t : thrown) : thrown :=
  if instanceof_Error t then t
  else JsError ("Network error: " ++ show_thrown t).

(** The settlement of [request], read off the answer to its own
    request. *)
Definition settlement_of (answer : outcome Response) : outcome Payload :=
  match answer with
  | Fulfilled response =>
      if ok response then json_body response
      else Rejected (JsError (error_message_of response))
  | Rejected t => Rejected (rethrown t)
  end.

(** The requests a call to [request] issues, given the answer to its
    own request. *)
Definition traffic_of (method endpoint : string) (body : option json)
    (answer : outcome Response) : list Request :=
  api_request method endpoint body ::
    match answer with
    | Fulfilled response =>
        if ok response then [usage_request endpoint method] else []
    | Rejected _ => []
    end.

Definition createProject (name : string) (description : option string)
  : M Payload :=
  request "POST" "/projects"
    (Some (JObj [("name", JStr name);
                 ("description", of_opt_str description)])).

Definition listProjects : M Payload :=
  request "GET" "/projects" None.

Definition setCurrentProject (projectId : string) : M Payload :=
  request "PUT" "/projects/current"
    (Some (JObj [("projectId", JStr projectId)])).

Definition getCurrentProject : M Payload :=
  request "GET" "/projects/current" None.

Definition storeMemory (projectId : option string) (content : string)
    (memoryType : option string) (importance : option Z) : M Payload :=
  match projectId with
  | Some pid =>
      if truthy pid then
        request "POST" ("/projects/" ++ pid ++ "/memories")
          (Some (JObj [("content", JStr content);
                       ("memoryType", of_opt_str memoryType);
                       ("importance", of_opt_num importance)]))
      else throw (JsError "Project ID is required for memory operations")
  | None => throw (JsError "Project ID is required for memory operations")
  end.

Definition searchMemory (projectId : option string) (query : string)
    (limit : Z) : M Payload :=
  match projectId with
  | Some pid =>
      if truthy pid then
        request "POST" ("/projects/" ++ pid ++ "/memories/search")
          (Some (JObj [("query", JStr query); ("limit", JNum limit)]))
      else throw (JsError "Project ID is required for memory operations")
  | None => throw (JsError "Project ID is required for memory operations")
  end.

Definition getMemories (projectId : option string) (limit : Z) : M Payload :=
  match projectId with
  | Some pid =>
      if truthy pid then
        request "GET"
          ("/projects/" ++ pid ++ "/memories?limit=" ++ show_Z limit) None
      else throw (JsError "Project ID is required for memory operations")
  | None => throw (JsError "Project ID is required for memory operations")
  end.

End ApiClient.

(** *** The tool server of [main] *)

(** A parsed body as the data [JSON.stringify] prints. *)
Definition entity_json (e : Entity) : json :=
  JObj (("id", JStr (id e)) :: attrs e).

Definition opt_field {A} (k : string) (f : A -> json) (o : option A)
  : list (string * json) :=
  match o with Some a => [(k, f a)] | None => [] end.

Definition payload_json (v : Payload) : json :=
  match v with
  | PNull => JNull
  | PEntity e => entity_json e
  | PArray es => JArr (List.map entity_json es)
  | PWrapper w =>
      JObj (opt_field "project" entity_json (project w)
            ++ opt_field "projects" (fun l => JArr (List.map entity_json l)) (projects w)
            ++ opt_field "memories" (fun l => JArr (List.map entity_json l)) (memories w)
            ++ opt_field "message" JStr (message w))%list
  end.

(** [n || d] on a number that may be absent. *)
Definition or_num (n : option Z) (d : Z) : Z :=
  match n with
  | Some z => if (z =? 0)%Z then d else z
  | None => d
  end.

(** The arguments [get_memories] declares. *)
Record TimeRange : Type := {
  range_start : option string;
  range_end : option string
}.

Section Server.
Context `{B : Backend}.

(** First [try] block of [ensureCurrentProject]: [Some id] when the
    block returned, [None] when control fell through or the block
    threw. *)
Definition adopt_marked : M (option string) :=
  try_catch
    (response <- getCurrentProject ;;
     project <- settle (prop_project response) ;;
     match project with
     | Some p =>
         if truthy (id p)
         then set_currentProjectId (Some (id p)) ;;; ret (Some (id p))
         else ret None
     | None => ret None
     end)
    (fun _ => ret None).

(** Second [try] block of [ensureCurrentProject]. *)
Definition adopt_first : M (option string) :=
  try_catch
    (response <- listProjects ;;
     projects <- settle (projects_or_self response) ;;
     match projects with
     | PArray (first :: _) =>
         let projectId := id first in
         set_currentProjectId (Some projectId) ;;;
         setCurrentProject projectId ;;;
         ret (Some projectId)
     | _ => ret None
     end)
    (fun _ => ret None).

Definition no_project_message : string :=
  "No project available. Please create a project first using create_project.".

Definition ensureCurrentProject : M string :=
  held <- get_currentProjectId ;;
  if truthy_opt held then ret (or_str held "")
  else
    marked <- adopt_marked ;;
    match marked with
    | Some projectId => ret projectId
    | None =>
        first <- adopt_first ;;
        match first with
        | Some projectId => ret projectId
        | None => throw (JsError no_project_message)
        end
    end.

Definition store_memory (content : string) (memoryType : option string)
    (importance : option Z) : M Envelope :=
  guarded
    (projectId <- ensureCurrentProject ;;
     memory <- storeMemory (Some projectId) content memoryType
                 (Some (or_num importance 5)) ;;
     memory_id <- settle (prop_id memory) ;;
     ret (text_envelope
            ("âœ… Memory stored successfully" ++ nl
             ++ "ID: " ++ show_json memory_id ++ nl
             ++ "Type: " ++ or_str memoryType "general" ++ nl
             ++ "Importance: " ++ show_Z (or_num importance 5) ++ "/10"))).

Definition search_memory (query : string) (limit : option Z) : M Envelope :=
  guarded
    (projectId <- ensureCurrentProject ;;
     response <- searchMemory (Some projectId) query (or_num limit 10) ;;
     results <- settle (memories_or_self response) ;;
     ret (text_envelope (JSON_stringify (Some 2) (payload_json results)))).

(** The handler is [async () => ...]: it reads none of its arguments. *)
Definition get_memories (memoryType : option string)
    (timeRange : option TimeRange) : M Envelope :=
  guarded
    (projectId <- ensureCurrentProject ;;
     response <- getMemories (Some projectId) 20 ;;
     memories <- settle (memories_or_self response) ;;
     memoryData <-
       settle (array_map "memories"
                 (fun m => JObj [("id", JStr (id m));
                                 ("content", attr m "content");
                                 ("type", attr m "memory_type");
                                 ("importance", attr m "importance");
                                 ("created_at", attr m "created_at")])
                 memories) ;;
     ret (text_envelope (JSON_stringify (Some 2) memoryData))).

Definition create_project (name : string) (description : option string)
  : M Envelope :=
  guarded
    (response <- createProject name description ;;
     project <- settle (project_or_self response) ;;
     project_id <- settle (prop_id project) ;;
     let projectData :=
       JObj [("id", project_id);
             ("name", prop_attr "name" project);
             ("description", prop_attr "description" project);
             ("created_at", prop_attr "created_at" project)] in
     ret (text_envelope (JSON_stringify (Some 2) projectData))).

Definition set_current_project (projectId : string) : M Envelope :=
  guarded
    (set_currentProjectId (Some projectId) ;;;
     setCurrentProject projectId ;;;
     ret (text_envelope ("Current project set to: " ++ projectId))).

Definition get_current_project : M Envelope :=
  guarded
    (response <- getCurrentProject ;;
     project <- settle (prop_project response) ;;
     match project with
     | None => ret (text_envelope "No project currently selected")
     | Some p =>
         let projectData :=
           JObj [("id", JStr (id p));
                 ("name", attr p "name");
                 ("description", attr p "description")] in
         ret (text_envelope (JSON_stringify (Some 2) projectData))
     end).

(** The machine after [currentProjectId = v]. *)
Definition with_current (v : option string) (m : Machine) : Machine :=
  snd (set_currentProjectId v m).

(** The project a settled [getCurrentProject] marks: the [id] of
    [response.project] when both are truthy. *)
Definition marked_id (r : outcome Payload) : option string :=
  match r with
  | Fulfilled response =>
      match prop_project response with
      | Fulfilled (Some p) => if truthy (id p) then Some (id p) else None
      | _ => None
      end
  | Rejected _ => None
  end.

(** The first project of a settled [listProjects], when it lists
    any. *)
Definition first_listed (r : outcome Payload) : option Entity :=
  match r with
  | Fulfilled response =>
      match projects_or_self response with
      | Fulfilled (PArray (first :: _)) => Some first
      | _ => None
      end
  | Rejected _ => None
  end.

(** What a tool call yields at the protocol boundary: the handler's
    envelope, or the refusal of an argument bag that does not fit the
    tool's schema, in which case the handler is not run. *)
Inductive reply : Type :=
| Answer (e : Envelope)
| InvalidParams.

Definition tool {A} (schema : Zod.parsed A) (handler : A -> M Envelope)
  : M reply :=
  match schema with
  | Zod.Valid a => e <- handler a ;; ret (Answer e)
  | Zod.ValidationError => ret InvalidParams
  end.

(** Schema of [search_memory]:
    [query: z.string().min(1)], [limit: z.number().min(1).max(50).optional()]. *)
Definition search_memory_schema (query : string) (limit : option Z)
  : Zod.parsed (string * option Z) :=
  if Zod.string_min1 query then
    match Zod.optional (Zod.number_min_max 1 50) limit with
    | Zod.Valid l => Zod.Valid (query, l)
    | Zod.ValidationError => Zod.ValidationError
    end
  else Zod.ValidationError.

Definition call_search_memory (query : string) (limit : option Z) : M reply :=
  tool (search_memory_schema query limit)
       (fun a => search_memory (fst a) (snd a)).

End Server.

End Remote.

(** ** The self-hosted server ([test-mcp.js]) *)

Module Direct.

(** *** The relational store

    The store is an outside service; its tables are those of the
    database setup in the README, and each query-builder call has the
    meaning of the SQL it produces. *)

Record PgError : Type := { code : string; message : string }.

(** [{ data, error }] *)
Record Result (A : Type) : Type := { data : option A; error : option PgError }.
Arguments data {A} r.
Arguments error {A} r.

Definition succeed {A} (a : A) : Result A := {| data := Some a; error := None |}.
Definition fail {A} (e : PgError) : Result A := {| data := None; error := Some e |}.

Record ProjectRow : Type := {
  p_id : string;
  p_name : string;
  p_description : option string;
  p_metadata : list (string * json);
  p_created_at : Z
}.

Record MemoryRow : Type := {
  m_id : string;
  m_project_id : option string;
  m_content : string;
  m_memory_type : option string;
  m_importance : Z;
  m_created_at : Z
}.

(** [tasks]: [status] and [priority] are [TEXT] columns with a [CHECK]
    on their values; the table has no parent column. *)
Record TaskRow : Type := {
  t_id : string;
  t_project_id : option string;
  t_title : string;
  t_description : option string;
  t_status : string;
  t_priority : string;
  t_dependencies : option (list string);
  t_metadata : list (string * json);
  t_created_at : Z
}.

(** The store: its tables, the value of [NOW()], the number of ids
    [gen_random_uuid()] has produced, and an outage that, while it
    lasts, makes every query fail. *)
Record Store : Type := {
  projects : list ProjectRow;
  memories : list MemoryRow;
  tasks : list TaskRow;
  now : Z;
  serial : nat;
  outage : option PgError
}.

(** What the platform supplies. *)
Class Platform : Type := {
  gen_random_uuid : nat -> string;
  toLocaleDateString : Z -> string;
  JSON_stringify : option nat -> json -> string
}.

(** The value of one key of an object literal handed to [insert]. *)
Inductive Cell : Type :=
| CUndefined
| CNull
| CText (s : string)
| CInt (z : Z)
| CArray (l : list string)
| CJson (fields : list (string * json)).

(** An object literal handed to [insert], key by key. *)
Definition Payload : Type := list (string * Cell).

(** The keys that reach the store: [JSON.stringify] drops the keys whose
    value is [undefined]. *)
Definition sent_keys (p : Payload) : list string :=
  List.map fst
    (List.filter (fun kv => match snd kv with CUndefined => false | _ => true end) p).

Definition is_hex (c : ascii) : bool :=
  let n := nat_of_ascii c in
  ((48 <=? n)%nat && (n <=? 57)%nat
   || (97 <=? n)%nat && (n <=? 102)%nat
   || (65 <=? n)%nat && (n <=? 70)%nat)%bool.

(** *** Values of type [UUID]

    A [UUID] column holds a 128-bit value. The store reads a text as
    such a value the way PostgreSQL does: sixteen pairs of hexadecimal
    digits in either case, with an optional hyphen after any group of
    four digits and the whole optionally in braces. It prints a value
    in one way only, in lower case and grouped 8-4-4-4-12. A value is
    kept here as the text it prints as: a row holds its ids in that
    form, and two texts denote the same value exactly when [uuid_in]
    gives the same result for both. *)

Definition lower_hex (c : ascii) : ascii :=
  let n := nat_of_ascii c in
  if ((65 <=? n)%nat && (n <=? 70)%nat)%bool then ascii_of_nat (n + 32) else c.

(** The pairs of digits still to read, from pair [i] on: the digits in
    lower case and what follows them. *)
Fixpoint uuid_pairs (left i : nat) (src : string) : option (string * string) :=
  match left with
  | O => Some (EmptyString, src)
  | S left' =>
      match src with
      | String a (String b rest) =>
          if (is_hex a && is_hex b)%bool then
            let rest' :=
              match rest with
              | String c r =>
                  if (Ascii.eqb c "-" && Nat.odd i && (i <? 15)%nat)%bool
                  then r else rest
              | EmptyString => rest
              end in
            match uuid_pairs left' (S i) rest' with
            | Some (digits, tail) =>
                Some (String (lower_hex a) (String (lower_hex b) digits), tail)
            | None => None
            end
          else None
      | _ => None
      end
  end.

(** The text of a value, from its 32 digits. *)
Definition uuid_out (digits : string) : string :=
  substring 0 8 digits ++ "-" ++ substring 8 4 digits ++ "-"
    ++ substring 12 4 digits ++ "-" ++ substring 16 4 digits ++ "-"
    ++ substring 20 12 digits.

(** The value a text denotes, if any. *)
Definition uuid_in (source : string) : option string :=
  let (closing, src) :=
    match source with
    | String c r => if Ascii.eqb c "{" then ("}", r) else ("", source)
    | EmptyString => ("", source)
    end in
  match uuid_pairs 16 0 src with
  | Some (digits, tail) =>
      if String.eqb tail closing then Some (uuid_out digits) else None
  | None => None
  end.

(** A text a [UUID] column accepts. *)
Definition is_uuid (s : string) : bool :=
  match uuid_in s with Some _ => true | None => false end.

(** A digit as a value prints it: a hexadecimal digit in lower case,
    hence neither a hyphen nor a brace. *)
Definition printed_digit (c : ascii) : Prop :=
  is_hex c = true /\ lower_hex c = c
  /\ Ascii.eqb c "-" = false /\ Ascii.eqb c "{" = false.

Definition invalid_uuid (v : string) : PgError :=
  {| code := "22P02";
     message := "invalid input syntax for type uuid: " ++ dq ++ v ++ dq |}.

Definition no_single_row : PgError :=
  {| code := "PGRST116";
     message := "JSON object requested, multiple (or no) rows returned" |}.

Definition unknown_column (table col : string) : PgError :=
  {| code := "PGRST204";
     message := "Could not find the '" ++ col ++ "' column of '" ++ table
                ++ "' in the schema cache" |}.

Definition not_null_violation (col : string) : PgError :=
  {| code := "23502";
     message := "null value in column " ++ col ++ " violates not-null constraint" |}.

Definition check_violation (col : string) : PgError :=
  {| code := "23514";
     message := "new row violates check constraint on " ++ col |}.

Definition foreign_key_violation (col : string) : PgError :=
  {| code := "23503";
     message := "insert violates foreign key constraint on " ++ col |}.

Definition unique_violation (col : string) : PgError :=
  {| code := "23505";
     message := "duplicate key value violates unique constraint on " ++ col |}.

Definition bad_value (col : string) : PgError :=
  {| code := "22P02"; message := "invalid input value for column " ++ col |}.

(** *** Queries *)

(** A query under construction: the rows selected so far, or the error
    the statement will end with. *)
Inductive Query (A : Type) : Type :=
| Rows (l : list A)
| Failed (e : PgError).
Arguments Rows {A} l.
Arguments Failed {A} e.

Definition where_ {A} (keep : A -> bool) (q : Query A) : Query A :=
  match q with
  | Rows l => Rows (List.filter keep l)
  | Failed e => Failed e
  end.

Definition opt_eqb (o : option string) (v : string) : bool :=
  match o with Some s => String.eqb s v | None => false end.

(** [.eq(col, v)] on a [UUID] column: the rows whose value is the one
    [v] denotes. *)
Definition eq_uuid {A} (col : A -> option string) (v : string) (q : Query A)
  : Query A :=
  match q with
  | Rows l =>
      match uuid_in v with
      | Some u => Rows (List.filter (fun r => opt_eqb (col r) u) l)
      | None => Failed (invalid_uuid v)
      end
  | Failed e => Failed e
  end.

(** [.eq(col, v)] on a [TEXT] column. *)
Definition eq_text {A} (col : A -> option string) (v : string) (q : Query A)
  : Query A :=
  where_ (fun r => opt_eqb (col r) v) q.

(** [.in(col, vs)] on a [TEXT] column. *)
Definition in_text {A} (col : A -> string) (vs : list string) (q : Query A)
  : Query A :=
  where_ (fun r => List.existsb (String.eqb (col r)) vs) q.

(** [.gte(col, v)] and [.lte(col, v)] on a timestamp column. *)
Definition gte {A} (col : A -> Z) (v : Z) (q : Query A) : Query A :=
  where_ (fun r => (v <=? col r)%Z) q.

Definition lte {A} (col : A -> Z) (v : Z) (q : Query A) : Query A :=
  where_ (fun r => (col r <=? v)%Z) q.

(** Sort keys. A [TEXT] column sorts as text, a timestamp as a number;
    [descending] reverses a key and [then_by] is the next [.order]. *)
Definition by_text {A} (col : A -> string) : A -> A -> comparison :=
  fun a b => String.compare (col a) (col b).

Definition by_time {A} (col : A -> Z) : A -> A -> comparison :=
  fun a b => Z.compare (col a) (col b).

Definition descending {A} (c : A -> A -> comparison) : A -> A -> comparison :=
  fun a b => c b a.

Definition then_by {A} (c1 c2 : A -> A -> comparison) : A -> A -> comparison :=
  fun a b => match c1 a b with Eq => c2 a b | r => r end.

Definition le_of {A} (c : A -> A -> comparison) (a b : A) : bool :=
  match c a b with Gt => false | _ => true end.

Fixpoint insert_sorted {A} (le : A -> A -> bool) (x : A) (l : list A) : list A :=
  match l with
  | [] => [x]
  | y :: rest => if le x y then x :: l else y :: insert_sorted le x rest
  end.

Definition sort_rows {A} (le : A -> A -> bool) (l : list A) : list A :=
  List.fold_right (insert_sorted le) [] l.

(** The [.order(...)] calls of a statement, taken together. *)
Definition order {A} (c : A -> A -> comparison) (q : Query A) : Query A :=
  match q with
  | Rows l => Rows (sort_rows (le_of c) l)
  | Failed e => Failed e
  end.

(** [.limit(n)] *)
Definition limit {A} (n : nat) (q : Query A) : Query A :=
  match q with
  | Rows l => Rows (List.firstn n l)
  | Failed e => Failed e
  end.

(** Awaiting a statement. *)
Definition run {A} (s : Store) (q : Query A) : Result (list A) :=
  match outage s with
  | Some e => fail e
  | None =>
      match q with
      | Rows l => succeed l
      | Failed e => fail e
      end
  end.

(** [.single()] *)
Definition single {A} (r : Result (list A)) : Result A :=
  match error r, data r with
  | Some e, _ => fail e
  | None, Some [row] => succeed row
  | None, _ => fail no_single_row
  end.

(** *** Inserts *)

(** The value a payload gives a column; [undefined] is no value. *)
Definition cell (k : string) (p : Payload) : option Cell :=
  match lookup k p with
  | Some CUndefined | None => None
  | Some c => Some c
  end.

(** [{ ...obj, k: v }] *)
Definition assign (obj : Payload) (k : string) (v : Cell) : Payload :=
  (List.filter (fun kv => negb (String.eqb (fst kv) k)) obj ++ [(k, v)])%list.

Definition mem (x : string) (l : list string) : bool :=
  List.existsb (String.eqb x) l.

Definition first_unknown (columns : list string) (p : Payload) : option string :=
  List.find (fun k => negb (mem k columns)) (sent_keys p).

Definition project_columns : list string :=
  ["id"; "name"; "description"; "metadata"; "created_at"].

Definition task_columns : list string :=
  ["id"; "project_id"; "title"; "description"; "status"; "priority";
   "dependencies"; "metadata"; "created_at"].

Definition statuses : list string :=
  ["pending"; "in_progress"; "completed"; "cancelled"].

Definition priorities : list string := ["low"; "medium"; "high"].

(** A row under construction, or the error that rejects it. *)
Definition checked (A : Type) : Type := (PgError + A)%type.

Definition need {A C} (c : checked A) (k : A -> checked C) : checked C :=
  match c with inl e => inl e | inr a => k a end.

Definition col_id (fresh : string) (p : Payload) : checked string :=
  match cell "id" p with
  | None => inr fresh
  | Some (CText v) =>
      match uuid_in v with
      | Some u => inr u
      | None => inl (invalid_uuid v)
      end
  | Some _ => inl (bad_value "id")
  end.

Definition col_created_at (s : Store) (p : Payload) : checked Z :=
  match cell "created_at" p with
  | None => inr (now s)
  | Some (CInt z) => inr z
  | Some _ => inl (bad_value "created_at")
  end.

Definition col_text_required (k : string) (p : Payload) : checked string :=
  match cell k p with
  | Some (CText v) => inr v
  | None | Some CNull => inl (not_null_violation k)
  | Some _ => inl (bad_value k)
  end.

Definition col_text_optional (k : string) (p : Payload) : checked (option string) :=
  match cell k p with
  | Some (CText v) => inr (Some v)
  | None | Some CNull => inr None
  | Some _ => inl (bad_value k)
  end.

Definition col_enum (k : string) (allowed : list string) (default : string)
    (p : Payload) : checked string :=
  match cell k p with
  | None => inr default
  | Some (CText v) => if mem v allowed then inr v else inl (check_violation k)
  | Some _ => inl (bad_value k)
  end.

Definition col_metadata (p : Payload) : checked (list (string * json)) :=
  match cell "metadata" p with
  | None => inr []
  | Some (CJson f) => inr f
  | Some _ => inl (bad_value "metadata")
  end.

Definition col_project_ref (s : Store) (p : Payload) : checked (option string) :=
  match cell "project_id" p with
  | None | Some CNull => inr None
  | Some (CText v) =>
      match uuid_in v with
      | Some u =>
          if mem u (List.map p_id (projects s)) then inr (Some u)
          else inl (foreign_key_violation "project_id")
      | None => inl (invalid_uuid v)
      end
  | Some _ => inl (bad_value "project_id")
  end.

(** The elements of a [UUID[]] value, each read as a [UUID]. *)
Fixpoint uuid_array (l : list string) : checked (list string) :=
  match l with
  | [] => inr []
  | v :: rest =>
      match uuid_in v with
      | Some u => need (uuid_array rest) (fun us => inr (u :: us))
      | None => inl (invalid_uuid v)
      end
  end.

Definition col_dependencies (p : Payload) : checked (option (list string)) :=
  match cell "dependencies" p with
  | None | Some CNull => inr None
  | Some (CArray l) => need (uuid_array l) (fun us => inr (Some us))
  | Some _ => inl (bad_value "dependencies")
  end.

Definition project_row (fresh : string) (s : Store) (p : Payload)
  : checked ProjectRow :=
  match first_unknown project_columns p with
  | Some k => inl (unknown_column "projects" k)
  | None =>
      need (col_id fresh p) (fun i =>
      need (col_text_required "name" p) (fun n =>
      need (col_text_optional "description" p) (fun d =>
      need (col_metadata p) (fun md =>
      need (col_created_at s p) (fun c =>
      if mem i (List.map p_id (projects s)) then inl (unique_violation "id")
      else inr {| p_id := i; p_name := n; p_description := d;
                  p_metadata := md; p_created_at := c |})))))
  end.

Definition task_row (fresh : string) (s : Store) (p : Payload)
  : checked TaskRow :=
  match first_unknown task_columns p with
  | Some k => inl (unknown_column "tasks" k)
  | None =>
      need (col_id fresh p) (fun i =>
      need (col_project_ref s p) (fun pr =>
      need (col_text_required "title" p) (fun t =>
      need (col_text_optional "description" p) (fun d =>
      need (col_enum "status" statuses "pending" p) (fun st =>
      need (col_enum "priority" priorities "medium" p) (fun pri =>
      need (col_dependencies p) (fun deps =>
      need (col_metadata p) (fun md =>
      need (col_created_at s p) (fun c =>
      if mem i (List.map t_id (tasks s)) then inl (unique_violation "id")
      else inr {| t_id := i; t_project_id := pr; t_title := t;
                  t_description := d; t_status := st; t_priority := pri;
                  t_dependencies := deps; t_metadata := md;
                  t_created_at := c |})))))))))
  end.

Section Inserts.
Context `{P : Platform}.

(** [.from('projects').insert(p).select()] *)
Definition insert_project (p : Payload) (s : Store)
  : Result (list ProjectRow) * Store :=
  match outage s with
  | Some e => (fail e, s)
  | None =>
      match project_row (gen_random_uuid (serial s)) s p with
      | inl e => (fail e, s)
      | inr row =>
          (succeed [row],
           {| projects := (projects s ++ [row])%list; memories := memories s;
              tasks := tasks s; now := now s; serial := S (serial s);
              outage := outage s |})
      end
  end.

(** The rows of one [insert] statement, built one after the other; the
    statement is all or nothing. *)
Fixpoint task_rows (ps : list Payload) (s : Store) : checked (list TaskRow * Store) :=
  match ps with
  | [] => inr ([], s)
  | p :: rest =>
      need (task_row (gen_random_uuid (serial s)) s p) (fun row =>
      need (task_rows rest
              {| projects := projects s; memories := memories s;
                 tasks := (tasks s ++ [row])%list; now := now s;
                 serial := S (serial s); outage := outage s |})
           (fun r => inr (row :: fst r, snd r)))
  end.

(** [.from('tasks').insert(ps).select()] *)
Definition insert_tasks (ps : list Payload) (s : Store)
  : Result (list TaskRow) * Store :=
  match outage s with
  | Some e => (fail e, s)
  | None =>
      match task_rows ps s with
      | inl e => (fail e, s)
      | inr (rows, s') => (succeed rows, s')
      end
  end.

End Inserts.

(** *** Strings *)

(** Texts are kept as their UTF-8 bytes. The white space of
    [String.prototype.trim] is the WhiteSpace and LineTerminator of
    ECMAScript: the ASCII characters below, U+00A0 (two bytes) and
    U+1680, U+2000 to U+200A, U+2028, U+2029, U+202F, U+205F, U+3000 and
    U+FEFF (three bytes each). *)
Definition is_space (c : ascii) : bool :=
  let n := nat_of_ascii c in
  ((n =? 32)%nat || (9 <=? n)%nat && (n <=? 13)%nat)%bool.

Definition is_space2 (a b : ascii) : bool :=
  ((nat_of_ascii a =? 194)%nat && (nat_of_ascii b =? 160)%nat)%bool.

Definition is_space3 (a b c : ascii) : bool :=
  let x := nat_of_ascii a in
  let y := nat_of_ascii b in
  let z := nat_of_ascii c in
  ((x =? 225) && (y =? 154) && (z =? 128)
   || (x =? 226) && (y =? 128)
      && ((128 <=? z) && (z <=? 138) || (z =? 168) || (z =? 169) || (z =? 175))
   || (x =? 226) && (y =? 129) && (z =? 159)
   || (x =? 227) && (y =? 128) && (z =? 128)
   || (x =? 239) && (y =? 187) && (z =? 191))%nat%bool.

(** The text without the white space it starts with, for white space
    given by its first, first two or first three bytes. *)
Fixpoint strip (sp2 : ascii -> ascii -> bool)
    (sp3 : ascii -> ascii -> ascii -> bool) (s : string) : string :=
  match s with
  | EmptyString => EmptyString
  | String a r1 =>
      if is_space a then strip sp2 sp3 r1
      else
        match r1 with
        | EmptyString => s
        | String b r2 =>
            if sp2 a b then strip sp2 sp3 r2
            else
              match r2 with
              | EmptyString => s
              | String c r3 => if sp3 a b c then strip sp2 sp3 r3 else s
              end
        end
  end.

Definition trim_start (s : string) : string := strip is_space2 is_space3 s.

Definition reverse (s : string) : string :=
  string_of_list_ascii (List.rev (list_ascii_of_string s)).

(** The same from the end: on the reversed text the bytes of a
    character come last to first. *)
Definition trim_end (s : string) : string :=
  reverse (strip (fun b a => is_space2 a b) (fun c b a => is_space3 a b c)
             (reverse s)).

(** [s.trim()] *)
Definition trim (s : string) : string := trim_end (trim_start s).

Fixpoint mapi_from {A C} (i : nat) (f : A -> nat -> C) (l : list A) : list C :=
  match l with
  | [] => []
  | x :: rest => f x i :: mapi_from (S i) f rest
  end.

(** [xs.map((x, index) => f x index)] *)
Definition mapi {A C} (f : A -> nat -> C) (l : list A) : list C :=
  mapi_from 0 f l.

(** *** The tool server *)

(** The state a tool call runs in: the global [currentProjectId] and the
    store. *)
Record Machine : Type := {
  currentProjectId : option string;
  store : Store
}.

Definition M (A : Type) : Type := Eff.M Machine A.

Definition get_currentProjectId : M (option string) :=
  fun m => (Fulfilled (currentProjectId m), m).

Definition set_currentProjectId (v : option string) : M unit :=
  fun m => (Fulfilled tt, {| currentProjectId := v; store := store m |}).

(** Awaiting a [select] statement. *)
Definition select {A} (q : Store -> Query A) : M (Result (list A)) :=
  fun m => (Fulfilled (run (store m) (q (store m))), m).

(** Awaiting an [insert] statement. *)
Definition inserting {A} (f : Store -> Result A * Store) : M (Result A) :=
  fun m =>
    let (r, s') := f (store m) in
    (Fulfilled r, {| currentProjectId := currentProjectId m; store := s' |}).

(** [throw error] for the [error] of a statement: an object with a
    [message]. *)
Definition throw_pg {A} (e : PgError) : M A := throw (JsError (message e)).

(** [data.x] on the [data] of a statement. *)
Definition non_null {A} (what : string) (d : option A) : M A :=
  match d with
  | Some a => ret a
  | None =>
      throw (JsError ("Cannot read properties of null (reading '" ++ what ++ "')"))
  end.

Definition no_current_project_envelope : Envelope :=
  text_envelope
    "Error: No current project set. Please create or select a project first using create_project or set_current_project.".

Definition no_current_project_error : thrown :=
  JsError "No current project set. Please create or select a project first.".

Definition opt_text (o : option string) : Cell :=
  match o with Some v => CText v | None => CUndefined end.

Definition opt_json (o : option string) : json :=
  match o with Some v => JStr v | None => JNull end.

Definition project_json (r : ProjectRow) : json :=
  JObj [("id", JStr (p_id r)); ("name", JStr (p_name r));
        ("description", opt_json (p_description r));
        ("metadata", JObj (p_metadata r));
        ("created_at", JNum (p_created_at r))].

(** The [timeRange] argument of [get_memories]: each bound is the
    instant its ISO text denotes; a bound that passed the schema is a
    non-empty text, hence truthy. *)
Record TimeRange : Type := {
  range_start : option Z;
  range_end : option Z
}.

Definition when_some {A C} (o : option C) (f : C -> Query A -> Query A)
    (q : Query A) : Query A :=
  match o with Some v => f v q | None => q end.

(** [if (memoryType) query = query.eq('memory_type', memoryType)] *)
Definition when_truthy {A} (o : option string)
    (f : string -> Query A -> Query A) (q : Query A) : Query A :=
  match o with
  | Some v => if truthy v then f v q else q
  | None => q
  end.

Section Server.
Context `{P : Platform}.

Definition create_project (name : string) (description : option string)
    (metadata : option (list (string * json))) : M Envelope :=
  guarded
    (if negb (truthy (trim name))
     then ret (text_envelope "Error: Project name cannot be empty.")
     else
       r <- inserting (fun s =>
              let (r, s') :=
                insert_project
                  [("name", CText (trim name));
                   ("description",
                     match description with
                     | Some d => if truthy (trim d) then CText (trim d) else CNull
                     | None => CNull
                     end);
                   ("metadata",
                     CJson (match metadata with Some f => f | None => [] end))]
                  s in
              (single r, s')) ;;
       match error r with
       | Some e =>
           if String.eqb (code e) "23505"
           then ret (text_envelope
                       ("Error: A project named " ++ dq ++ name ++ dq
                        ++ " already exists. Please choose a different name."))
           else ret (text_envelope ("Error creating project: " ++ message e))
       | None =>
           row <- non_null "id" (data r) ;;
           set_currentProjectId (Some (p_id row)) ;;;
           ret (text_envelope
                  ("✅ Project created and set as current" ++ nl
                   ++ "Name: " ++ p_name row ++ nl
                   ++ "ID: " ++ p_id row ++ nl
                   ++ "Description: " ++ or_str (p_description row) "None" ++ nl
                   ++ "Created: " ++ toLocaleDateString (p_created_at row)))
       end).

Definition get_current_project : M Envelope :=
  held <- get_currentProjectId ;;
  match held with
  | Some cur =>
      if truthy cur then
        r <- select (fun s => eq_uuid (fun p => Some (p_id p)) cur (Rows (projects s))) ;;
        match error (single r) with
        | Some e => throw_pg e
        | None =>
            memoryCount <- select (fun s => eq_uuid m_project_id cur (Rows (memories s))) ;;
            taskCount <- select (fun s => eq_uuid t_project_id cur (Rows (tasks s))) ;;
            let count {A} (r : Result (list A)) : Z :=
              match data r with Some l => Z.of_nat (List.length l) | None => 0%Z end in
            ret (text_envelope
                   (JSON_stringify (Some 2)
                      (JObj [("project",
                               match data (single r) with
                               | Some row => project_json row
                               | None => JNull
                               end);
                             ("stats",
                               JObj [("memories", JNum (count memoryCount));
                                     ("tasks", JNum (count taskCount))])])))
        end
      else ret (text_envelope "No project currently selected")
  | None => ret (text_envelope "No project currently selected")
  end.

Definition list_projects : M Envelope :=
  r <- select (fun s => order (descending (by_time p_created_at)) (Rows (projects s))) ;;
  match error r with
  | Some e => throw_pg e
  | None =>
      ret (text_envelope
             (JSON_stringify (Some 2)
                (match data r with
                 | Some l => JArr (List.map project_json l)
                 | None => JNull
                 end)))
  end.

Definition create_task (title : string) (description priority : option string)
    (dependencies : option (list string)) : M Envelope :=
  held <- get_currentProjectId ;;
  if negb (truthy_opt held) then throw no_current_project_error
  else
    r <- inserting (fun s =>
           let (r, s') :=
             insert_tasks
               [[("project_id", opt_text held);
                 ("title", CText title);
                 ("description", opt_text description);
                 ("priority", CText (or_str priority "medium"));
                 ("dependencies",
                   CArray (match dependencies with Some l => l | None => [] end));
                 ("status", CText "pending")]]
               s in
           (single r, s')) ;;
    match error r with
    | Some e => throw_pg e
    | None =>
        row <- non_null "title" (data r) ;;
        ret (text_envelope
               ("Task created: " ++ t_title row ++ " (" ++ t_id row ++ ")"))
    end.

(** The statement of [suggest_next_task]. *)
Definition suggestion_query (held : option string) (s : Store) : Query TaskRow :=
  limit 1
    (order (then_by (descending (by_text t_priority)) (by_time t_created_at))
       (in_text t_status ["pending"; "in_progress"]
          (eq_uuid t_project_id (or_str held "default") (Rows (tasks s))))).

Definition suggest_next_task (context : option string) : M Envelope :=
  held <- get_currentProjectId ;;
  r <- select (suggestion_query held) ;;
  match error r with
  | Some e => throw_pg e
  | None =>
      match data r with
      | Some (suggestedTask :: _) =>
          ret (text_envelope
                 ("Suggested next task: " ++ t_title suggestedTask
                  ++ " (Priority: " ++ t_priority suggestedTask ++ ")"))
      | Some [] | None => ret (text_envelope "No pending tasks found. Great job!")
      end
  end.

(** The three object literals of [break_down_task]. *)
Definition subtasks (task : TaskRow) : list Payload :=
  [ [("title", CText ("Research: " ++ t_title task));
     ("description", CText ("Research and gather requirements for " ++ t_title task));
     ("priority", CText (t_priority task))];
    [("title", CText ("Implement: " ++ t_title task));
     ("description", CText ("Core implementation of " ++ t_title task));
     ("priority", CText (t_priority task))];
    [("title", CText ("Test: " ++ t_title task));
     ("description", CText ("Test and validate " ++ t_title task));
     ("priority", CText "medium")] ].

(** [subtasks.map(st => ({ ...st, project_id, status, dependencies }))] *)
Definition subtask_payloads (held : option string) (taskId : string)
    (task : TaskRow) : list Payload :=
  List.map
    (fun st =>
       assign (assign (assign st "project_id" (opt_text held))
                 "status" (CText "pending"))
         "dependencies" (CArray [taskId]))
    (subtasks task).

Definition break_down_task (taskId : string) (targetComplexity : option Z)
  : M Envelope :=
  held <- get_currentProjectId ;;
  if negb (truthy_opt held) then throw no_current_project_error
  else
    r <- select (fun s => eq_uuid (fun t => Some (t_id t)) taskId (Rows (tasks s))) ;;
    match error (single r) with
    | Some taskError => throw_pg taskError
    | None =>
        task <- non_null "title" (data (single r)) ;;
        created <- inserting (insert_tasks (subtask_payloads held taskId task)) ;;
        match error created with
        | Some createError => throw_pg createError
        | None =>
            createdSubtasks <- non_null "length" (data created) ;;
            ret (text_envelope
                   ("Task broken down into "
                    ++ show_nat (List.length createdSubtasks) ++ " subtasks:" ++ nl
                    ++ String.concat nl
                         (List.map (fun t => "- " ++ t_title t) createdSubtasks)))
        end
    end.

(** The statement of [get_memories]. *)
Definition memories_query (cur : string) (memoryType : option string)
    (timeRange : option TimeRange) (s : Store) : Query MemoryRow :=
  order (descending (by_time m_created_at))
    (when_some (match timeRange with Some t => range_end t | None => None end)
       (lte m_created_at)
       (when_some (match timeRange with Some t => range_start t | None => None end)
          (gte m_created_at)
          (when_truthy memoryType (eq_text m_memory_type)
             (eq_uuid m_project_id cur (Rows (memories s)))))).

Definition format_memory (memory : MemoryRow) (index : nat) : string :=
  show_nat (index + 1) ++ ". " ++ m_content memory ++ nl
  ++ "   ID: " ++ m_id memory ++ nl
  ++ "   Type: " ++ or_str (m_memory_type memory) "general"
  ++ " | Importance: " ++ show_Z (m_importance memory) ++ "/10" ++ nl
  ++ "   Created: " ++ toLocaleDateString (m_created_at memory).

Definition get_memories (memoryType : option string)
    (timeRange : option TimeRange) : M Envelope :=
  guarded
    (held <- get_currentProjectId ;;
     match held with
     | None => ret no_current_project_envelope
     | Some cur =>
         if negb (truthy cur) then ret no_current_project_envelope
         else
           r <- select (memories_query cur memoryType timeRange) ;;
           match error r with
           | Some e =>
               ret (text_envelope ("Error retrieving memories: " ++ message e))
           | None =>
               match data r with
               | None | Some [] =>
                   let filterText :=
                     if truthy_opt memoryType
                     then " of type " ++ dq ++ or_str memoryType "" ++ dq
                     else "" in
                   ret (text_envelope
                          ("No memories found" ++ filterText
                           ++ ". Use store_memory to add some memories first."))
               | Some rows =>
                   ret (text_envelope
                          ("📁 Found " ++ show_nat (List.length rows)
                           ++ " memories:" ++ nl ++ nl
                           ++ String.concat (nl ++ nl) (mapi format_memory rows)))
               end
           end
     end).

(** Schema of [search_memory]:
    [query: z.string().min(1)],
    [limit: z.number().min(1).max(100).default(10)]. *)
Definition search_memory_schema (query : string) (limit : option Z)
  : Zod.parsed (string * Z) :=
  if Zod.string_min1 query then
    match Zod.with_default (Zod.number_min_max 1 100) 10%Z limit with
    | Zod.Valid l => Zod.Valid (query, l)
    | Zod.ValidationError => Zod.ValidationError
    end
  else Zod.ValidationError.

End Server.

End Direct.

(** ** Sample worlds

    A small hosted service with canned answers, a platform for the
    self-hosted server and a few stores, to run the two servers on. *)

Module Demo.

(** A plain printer standing for [JSON.stringify]. *)
Fixpoint print (j : json) : string :=
  match j with
  | JUndefined => "undefined"
  | JNull => "null"
  | JBool true => "true"
  | JBool false => "false"
  | JNum z => show_Z z
  | JStr s => s
  | JArr items =>
      "[" ++ (fix each (l : list json) : string :=
                match l with
                | [] => ""
                | x :: rest => print x ++ ";" ++ each rest
                end) items ++ "]"
  | JObj fields =>
      "{" ++ (fix each (l : list (string * json)) : string :=
                match l with
                | [] => ""
                | (k, v) :: rest => k ++ ":" ++ print v ++ ";" ++ each rest
                end) fields ++ "}"
  end.

Definition stringify (indent : option nat) (j : json) : string := print j.

Module Hosted.
Import Remote.

Record Service : Type := {
  marked : option Entity;
  listing : list Entity;
  memory_list : list Entity;
  created : Entity;
  put_fails : bool;
  tracking_fails : bool
}.

Definition base : string := "https://api.example.test".

Definition respond (st : nat) (txt : string) (p : Payload) : Response :=
  {| status := st; statusText := txt; json_body := Fulfilled p |}.

Definition wrapping (p : option Entity) (ps ms : option (list Entity))
    (msg : option string) : Payload :=
  PWrapper {| project := p; projects := ps; memories := ms; message := msg |}.

Definition names (e : Entity) (b : option string) : bool :=
  match b with
  | Some text =>
      String.eqb text (stringify None (JObj [("projectId", JStr (id e))]))
  | None => false
  end.

Definition serve (req : Request) (w : Service) : outcome Response * Service :=
  if String.eqb (url req) (base ++ "/usage/track") then
    (if tracking_fails w then Rejected (JsError "socket hang up")
     else Fulfilled (respond 200 "OK" PNull), w)
  else if String.eqb (url req) (base ++ "/projects/current") then
    if String.eqb (method req) "GET" then
      (Fulfilled (respond 200 "OK" (wrapping (marked w) None None None)), w)
    else if put_fails w then
      (Fulfilled (respond 500 "Internal Server Error"
                    (wrapping None None None (Some "cannot mark project"))), w)
    else
      match List.find (fun e => names e (body req)) (listing w) with
      | Some e =>
          (Fulfilled (respond 200 "OK" (wrapping (Some e) None None None)),
           {| marked := Some e; listing := listing w;
              memory_list := memory_list w; created := created w;
              put_fails := put_fails w; tracking_fails := tracking_fails w |})
      | None =>
          (Fulfilled (respond 404 "Not Found"
                        (wrapping None None None (Some "Project not found"))), w)
      end
  else if String.eqb (url req) (base ++ "/projects") then
    if String.eqb (method req) "GET" then
      (Fulfilled (respond 200 "OK" (wrapping None (Some (listing w)) None None)), w)
    else
      (Fulfilled (respond 201 "Created" (wrapping (Some (created w)) None None None)),
       {| marked := marked w; listing := created w :: listing w;
          memory_list := memory_list w; created := created w;
          put_fails := put_fails w; tracking_fails := tracking_fails w |})
  else if List.existsb
            (fun e => String.eqb (url req)
                        (base ++ "/projects/" ++ id e ++ "/memories?limit=20"))
            (listing w) then
    (Fulfilled (respond 200 "OK" (wrapping None None (Some (memory_list w)) None)), w)
  else
    (Fulfilled (respond 404 "Not Found"
                  (wrapping None None None (Some "Not found"))), w).

Definition backend : Backend :=
  {| W := Service; net := serve; apiKey := "key"; apiUrl := base;
     JSON_stringify := stringify |}.

Definition alpha : Entity :=
  {| id := "p-alpha"; attrs := [("name", JStr "Alpha")] |}.

Definition beta : Entity :=
  {| id := "p-beta"; attrs := [("name", JStr "Beta")] |}.

Definition gamma : Entity :=
  {| id := "p-gamma"; attrs := [("name", JStr "Gamma")] |}.

Definition code_note : Entity :=
  {| id := "m-1";
     attrs := [("content", JStr "use tabs"); ("memory_type", JStr "code");
               ("importance", JNum 5); ("created_at", JStr "2025-01-02")] |}.

Definition decision_note : Entity :=
  {| id := "m-2";
     attrs := [("content", JStr "ship friday"); ("memory_type", JStr "decision");
               ("importance", JNum 7); ("created_at", JStr "2025-01-01")] |}.

Definition service (m : option Entity) (l : list Entity) (fails_put : bool)
  : Service :=
  {| marked := m; listing := l; memory_list := [code_note; decision_note];
     created := gamma; put_fails := fails_put; tracking_fails := true |}.

(** A machine at start-up, or with a reference already held. *)
Definition machine (held : option string) (w : Service) : @Machine backend :=
  @Build_Machine backend held w [] [] [].

End Hosted.

Module SelfHosted.
Import Direct.

Fixpoint zeros (n : nat) : string :=
  match n with O => "" | S n' => "0" ++ zeros n' end.

Definition uuid_of (n : nat) : string :=
  "00000000-0000-4000-8000-"
    ++ zeros (12 - String.length (show_nat n)) ++ show_nat n.

Definition platform : Platform :=
  {| gen_random_uuid := uuid_of;
     toLocaleDateString := show_Z;
     JSON_stringify := stringify |}.

Definition project_id : string := "11111111-1111-4111-8111-111111111111".
Definition urgent_id : string := "aaaaaaaa-aaaa-4aaa-8aaa-aaaaaaaaaaaa".
Definition routine_id : string := "bbbbbbbb-bbbb-4bbb-8bbb-bbbbbbbbbbbb".

(** The id of [urgent] in upper case, and the id of the project without
    its hyphens. *)
Definition shouted_id : string := "AAAAAAAA-AAAA-4AAA-8AAA-AAAAAAAAAAAA".
Definition bare_project_id : string := "11111111111141118111111111111111".

Definition workspace : ProjectRow :=
  {| p_id := project_id; p_name := "Workspace"; p_description := None;
     p_metadata := []; p_created_at := 1 |}.

Definition task (i title status priority : string) (at_ : Z) : TaskRow :=
  {| t_id := i; t_project_id := Some project_id; t_title := title;
     t_description := None; t_status := status; t_priority := priority;
     t_dependencies := None; t_metadata := []; t_created_at := at_ |}.

Definition urgent : TaskRow := task urgent_id "Fix login" "pending" "high" 10.
Definition routine : TaskRow := task routine_id "Tidy docs" "pending" "medium" 20.

Definition shop : Store :=
  {| projects := [workspace]; memories := []; tasks := [urgent; routine];
     now := 100; serial := 0; outage := None |}.

Definition machine (held : option string) (s : Store) : Machine :=
  {| currentProjectId := held; store := s |}.

End SelfHosted.

End Demo.

(** ** The hosted-API server: start-up and the remaining tools *)

Module RemoteTools.
Import Remote.

(** What [validateKey] resolves to. *)
Record KeyCheck : Type := {
  valid : bool;
  subscription : string;
  key_projects : Payload
}.

(** How the start of [main] ends: [process.exit(code)] or a validated
    client, with the lines written to the error stream. *)
Inductive startup : Type :=
| Exit (code : nat) (stderr : list string)
| Ready (stderr : list string).

(** [`${v}`] for a [string | null] argument. *)
Definition null_or_str (o : option string) : json :=
  match o with Some s => JStr s | None => JNull end.

Section Tools.
Context `{B : Backend}.

(** [validateKey]: the request is awaited inside the [try]. *)
Definition validateKey : M KeyCheck :=
  try_catch
    (data <- request "GET" "/projects" None ;;
     ret {| valid := true; subscription := "free"; key_projects := data |})
    (fun error =>
       throw (JsError ("API validation failed: " ++ message_of error))).

(** The start of [main], up to the creation of the server. The client
    [B] is the one [main] builds from the key and the URL of the
    environment. *)
Definition main_startup (AGENTCORTEX_API_KEY : option string)
  : Machine -> startup * Machine :=
  fun m =>
    if negb (truthy_opt AGENTCORTEX_API_KEY) then
      (Exit 1 [ "Error: AGENTCORTEX_API_KEY environment variable is required";
                "Get your API key from https://agentcortex.dev/dashboard/api-keys" ],
       m)
    else
      match validateKey m with
      | (Fulfilled check, m') =>
          if negb (valid check) then (Exit 1 ["Error: Invalid API key"], m')
          else (Ready ["Connected to TaskMem (" ++ subscription check ++ " plan)"],
                m')
      | (Rejected error, m') =>
          (Exit 1 ["Error: Failed to validate API key: " ++ message_of error], m')
      end.

Definition updateMemoryImportance (memoryId : string) (importance : Z)
  : M Payload :=
  request "PUT" ("/memories/" ++ memoryId)
    (Some (JObj [("importance", JNum importance)])).

Definition createTask (projectId : option string) (title : string)
    (description priority : option string) (dependencies : option (list string))
  : M Payload :=
  match projectId with
  | Some pid =>
      if truthy pid then
        request "POST" ("/projects/" ++ pid ++ "/tasks")
          (Some (JObj [("title", JStr title);
                       ("description", of_opt_str description);
                       ("priority", JStr (or_str priority "medium"));
                       ("dependencies",
                         match dependencies with
                         | Some l => JArr (List.map JStr l)
                         | None => JUndefined
                         end)]))
      else throw (JsError "Project ID is required for task operations")
  | None => throw (JsError "Project ID is required for task operations")
  end.

(** [new URLSearchParams({ ...(status && { status }) })], as text, for a
    status of the enumeration. *)
Definition status_params (status : option string) : string :=
  match status with
  | Some s => if truthy s then "status=" ++ s else ""
  | None => ""
  end.

Definition listTasks (projectId : option string) (status : option string)
  : M Payload :=
  match projectId with
  | Some pid =>
      if truthy pid then
        request "GET" ("/projects/" ++ pid ++ "/tasks?" ++ status_params status) None
      else throw (JsError "Project ID is required for task operations")
  | None => throw (JsError "Project ID is required for task operations")
  end.

Definition updateTaskStatus (taskId status : string) : M Payload :=
  request "PUT" ("/tasks/" ++ taskId) (Some (JObj [("status", JStr status)])).

Definition suggestNextTask (projectId : option string) : M Payload :=
  request "POST" "/tasks/suggest"
    (Some (JObj [("projectId", null_or_str projectId)])).

Definition breakDownTask (taskId : string) : M Payload :=
  request "POST" ("/tasks/" ++ taskId ++ "/breakdown") None.

Definition update_memory_importance (memoryId : string) (importance : Z)
  : M Envelope :=
  guarded
    (memory <- updateMemoryImportance memoryId importance ;;
     memory_id <- settle (prop_id memory) ;;
     ret (text_envelope
            ("Memory importance updated successfully: " ++ show_json memory_id
             ++ " (importance: " ++ show_json (prop_attr "importance" memory)
             ++ ")"))).

Definition list_projects : M Envelope :=
  guarded
    (response <- listProjects ;;
     projects <- settle (projects_or_self response) ;;
     projectData <-
       settle (array_map "projects"
                 (fun p => JObj [("id", JStr (id p));
                                 ("name", attr p "name");
                                 ("description", attr p "description");
                                 ("memory_count", attr p "memory_count");
                                 ("task_count", attr p "task_count");
                                 ("created_at", attr p "created_at")])
                 projects) ;;
     ret (text_envelope (JSON_stringify (Some 2) projectData))).

(** The handler takes [{ taskId, status }]: [notes] is declared and not
    read. *)
Definition update_task_status (taskId status : string) (notes : option string)
  : M Envelope :=
  guarded
    (task <- updateTaskStatus taskId status ;;
     task_id <- settle (prop_id task) ;;
     ret (text_envelope
            ("Task status updated successfully: " ++ show_json task_id
             ++ " (status: " ++ show_json (prop_attr "status" task) ++ ")"))).

(** The handler is [async () => ...]. *)
Definition suggest_next_task (context : option string) : M Envelope :=
  guarded
    (projectId <- ensureCurrentProject ;;
     suggestion <- suggestNextTask (Some projectId) ;;
     ret (text_envelope (JSON_stringify (Some 2) (payload_json suggestion)))).

(** The handler takes [{ taskId }]. *)
Definition break_down_task (taskId : string) (targetComplexity : option Z)
  : M Envelope :=
  guarded
    (subtasks <- breakDownTask taskId ;;
     ret (text_envelope (JSON_stringify (Some 2) (payload_json subtasks)))).

(** Schemas of [store_memory] and [update_memory_importance]:
    [importance: z.number().min(1).max(10)], optional in the first. *)
Definition store_memory_schema (content : string) (memoryType : option string)
    (importance : option Z)
  : Zod.parsed (string * option string * option Z) :=
  if Zod.string_min1 content then
    match Zod.optional (Zod.number_min_max 1 10) importance with
    | Zod.Valid i => Zod.Valid (content, memoryType, i)
    | Zod.ValidationError => Zod.ValidationError
    end
  else Zod.ValidationError.

Definition call_store_memory (content : string) (memoryType : option string)
    (importance : option Z) : M reply :=
  tool (store_memory_schema content memoryType importance)
       (fun a => store_memory (fst (fst a)) (snd (fst a)) (snd a)).

Definition update_memory_importance_schema (memoryId : string) (importance : Z)
  : Zod.parsed (string * Z) :=
  if Zod.number_min_max 1 10 importance then Zod.Valid (memoryId, importance)
  else Zod.ValidationError.

Definition call_update_memory_importance (memoryId : string) (importance : Z)
  : M reply :=
  tool (update_memory_importance_schema memoryId importance)
       (fun a => update_memory_importance (fst a) (snd a)).

End Tools.

End RemoteTools.

(** ** The self-hosted server: the remaining tools *)

Module DirectTools.
Import Direct.

Definition undefined_column (table col : string) : PgError :=
  {| code := "42703";
     message := "column " ++ table ++ "." ++ col ++ " does not exist" |}.

(** [.eq(col, v)] on a column the table does not have. *)
Definition eq_missing {A} (table col : string) (q : Query A) : Query A :=
  match q with
  | Rows _ => Failed (undefined_column table col)
  | Failed e => Failed e
  end.

(** [.eq(col, v)] on a [TEXT] column that is never null. *)
Definition eq_plain {A} (col : A -> string) (v : string) (q : Query A) : Query A :=
  where_ (fun r => String.eqb (col r) v) q.

(** The object [update_task_status] hands to [update]:
    [{ status, metadata }], where [metadata] may be [undefined]. *)
Record TaskPatch : Type := {
  patch_status : string;
  patch_metadata : option (list (string * json))
}.

Definition patched (p : TaskPatch) (r : TaskRow) : TaskRow :=
  {| t_id := t_id r; t_project_id := t_project_id r; t_title := t_title r;
     t_description := t_description r; t_status := patch_status p;
     t_priority := t_priority r; t_dependencies := t_dependencies r;
     t_metadata := match patch_metadata p with
                   | Some f => f
                   | None => t_metadata r
                   end;
     t_created_at := t_created_at r |}.

Definition with_tasks (s : Store) (l : list TaskRow) : Store :=
  {| projects := projects s; memories := memories s; tasks := l;
     now := now s; serial := serial s; outage := outage s |}.

Definition with_memories (s : Store) (l : list MemoryRow) : Store :=
  {| projects := projects s; memories := l; tasks := tasks s;
     now := now s; serial := serial s; outage := outage s |}.

(** [.from('tasks').update(p).eq('id', taskId).select().single()]: the
    statement changes the store only when it matches one row. *)
Definition update_task (p : TaskPatch) (taskId : string) (s : Store)
  : Result TaskRow * Store :=
  match outage s with
  | Some e => (fail e, s)
  | None =>
      match uuid_in taskId with
      | Some u =>
          match List.filter (fun r => String.eqb (t_id r) u) (tasks s) with
          | [row] =>
              if mem (patch_status p) statuses then
                (succeed (patched p row),
                 with_tasks s
                   (List.map (fun r => if String.eqb (t_id r) u
                                       then patched p r else r) (tasks s)))
              else (fail (check_violation "status"), s)
          | _ => (fail no_single_row, s)
          end
      | None => (fail (invalid_uuid taskId), s)
      end
  end.

Definition reranked (importance : Z) (r : MemoryRow) : MemoryRow :=
  {| m_id := m_id r; m_project_id := m_project_id r; m_content := m_content r;
     m_memory_type := m_memory_type r; m_importance := importance;
     m_created_at := m_created_at r |}.

(** [.from('memories').update({ importance }).eq('id', memoryId).select().single()] *)
Definition update_memory (importance : Z) (memoryId : string) (s : Store)
  : Result MemoryRow * Store :=
  match outage s with
  | Some e => (fail e, s)
  | None =>
      match uuid_in memoryId with
      | Some u =>
          match List.filter (fun r => String.eqb (m_id r) u) (memories s) with
          | [row] =>
              if ((1 <=? importance)%Z && (importance <=? 10)%Z)%bool then
                (succeed (reranked importance row),
                 with_memories s
                   (List.map (fun r => if String.eqb (m_id r) u
                                       then reranked importance r else r)
                      (memories s)))
              else (fail (check_violation "importance"), s)
          | _ => (fail no_single_row, s)
          end
      | None => (fail (invalid_uuid memoryId), s)
      end
  end.

(** The embedding service: a text becomes a vector, or the call fails. *)
Class Embedder : Type := {
  Vec : Type;
  generateEmbedding : string -> outcome Vec
}.

(** The object [store_memory] hands to [insert]. The vector is stored
    for the similarity search alone and is no part of a [MemoryRow]. *)
Record MemoryInsert `{Embedder} : Type := {
  ins_project_id : string;
  ins_content : string;
  ins_memory_type : option string;
  ins_importance : Z;
  ins_embedding : Vec
}.

Definition memory_json (r : MemoryRow) : json :=
  JObj [("id", JStr (m_id r)); ("project_id", opt_json (m_project_id r));
        ("content", JStr (m_content r));
        ("memory_type", opt_json (m_memory_type r));
        ("importance", JNum (m_importance r));
        ("created_at", JNum (m_created_at r))].

Definition task_json (r : TaskRow) : json :=
  JObj [("id", JStr (t_id r)); ("project_id", opt_json (t_project_id r));
        ("title", JStr (t_title r));
        ("description", opt_json (t_description r));
        ("status", JStr (t_status r)); ("priority", JStr (t_priority r));
        ("dependencies",
          match t_dependencies r with
          | Some l => JArr (List.map JStr l)
          | None => JNull
          end);
        ("metadata", JObj (t_metadata r));
        ("created_at", JNum (t_created_at r))].

(** [tasks.filter(t => t.status === v).length] *)
Definition count_status (v : string) (l : list TaskRow) : nat :=
  List.length (List.filter (fun t => String.eqb (t_status t) v) l).

(** The [taskSummary] of [get_project_context]. *)
Record TaskSummary : Type := {
  total : nat;
  pending : nat;
  in_progress : nat;
  completed : nat
}.

Definition taskSummary (l : list TaskRow) : TaskSummary :=
  {| total := List.length l;
     pending := count_status "pending" l;
     in_progress := count_status "in_progress" l;
     completed := count_status "completed" l |}.

Definition summary_json (t : TaskSummary) : json :=
  JObj [("total", JNum (Z.of_nat (total t)));
        ("pending", JNum (Z.of_nat (pending t)));
        ("in_progress", JNum (Z.of_nat (in_progress t)));
        ("completed", JNum (Z.of_nat (completed t)))].

(** [a || b] on two [string | null] values. *)
Definition or_opt (a b : option string) : option string :=
  if truthy_opt a then a else b.

Section Tools.
Context `{P : Platform} `{E : Embedder}.

(** [.from('memories').insert(p).select()] *)
Definition insert_memory (p : MemoryInsert) (s : Store)
  : Result (list MemoryRow) * Store :=
  match outage s with
  | Some e => (fail e, s)
  | None =>
      match uuid_in (ins_project_id p) with
      | Some project =>
          if mem project (List.map p_id (projects s)) then
            if ((1 <=? ins_importance p)%Z && (ins_importance p <=? 10)%Z)%bool then
              if mem (gen_random_uuid (serial s)) (List.map m_id (memories s))
              then (fail (unique_violation "id"), s)
              else
                let row :=
                  {| m_id := gen_random_uuid (serial s);
                     m_project_id := Some project;
                     m_content := ins_content p;
                     m_memory_type := ins_memory_type p;
                     m_importance := ins_importance p;
                     m_created_at := now s |} in
                (succeed [row],
                 {| projects := projects s;
                    memories := (memories s ++ [row])%list;
                    tasks := tasks s; now := now s; serial := S (serial s);
                    outage := outage s |})
            else (fail (check_violation "importance"), s)
          else (fail (foreign_key_violation "project_id"), s)
      | None => (fail (invalid_uuid (ins_project_id p)), s)
      end
  end.

Definition store_memory (content : string) (memoryType : option string)
    (importance : option Z) : M Envelope :=
  guarded
    (held <- get_currentProjectId ;;
     match held with
     | None => ret no_current_project_envelope
     | Some cur =>
         if negb (truthy cur) then ret no_current_project_envelope
         else if negb (truthy (trim content))
         then ret (text_envelope "Error: Content cannot be empty.")
         else
           embedding <- settle (generateEmbedding content) ;;
           r <- inserting (fun s =>
                  let (r, s') :=
                    insert_memory
                      {| ins_project_id := cur;
                         ins_content := trim content;
                         ins_memory_type :=
                           match memoryType with
                           | Some t => if truthy t then Some t else None
                           | None => None
                           end;
                         ins_importance := Remote.or_num importance 5;
                         ins_embedding := embedding |} s in
                  (single r, s')) ;;
           match error r with
           | Some e => ret (text_envelope ("Error storing memory: " ++ message e))
           | None =>
               row <- non_null "id" (data r) ;;
               ret (text_envelope
                      ("✅ Memory stored successfully" ++ nl
                       ++ "ID: " ++ m_id row ++ nl
                       ++ "Type: " ++ or_str (m_memory_type row) "general" ++ nl
                       ++ "Importance: " ++ show_Z (m_importance row) ++ "/10"))
           end
     end).

Definition update_memory_importance (memoryId : string) (importance : Z)
  : M Envelope :=
  guarded
    (r <- inserting (update_memory importance memoryId) ;;
     match error r with
     | Some e =>
         if String.eqb (code e) "PGRST116"
         then ret (text_envelope
                     ("Error: Memory with ID " ++ dq ++ memoryId ++ dq
                      ++ " not found. Use get_memories to find valid memory IDs."))
         else ret (text_envelope
                     ("Error updating memory importance: " ++ message e))
     | None =>
         row <- non_null "id" (data r) ;;
         ret (text_envelope
                ("✅ Memory importance updated" ++ nl
                 ++ "ID: " ++ m_id row ++ nl
                 ++ "New importance: " ++ show_Z importance ++ "/10" ++ nl
                 ++ "Content: " ++ substring 0 100 (m_content row)
                 ++ (if (100 <? String.length (m_content row))%nat
                     then "..." else "")))
     end).

Definition set_current_project (projectId : string) : M Envelope :=
  guarded
    (r <- select (fun s => eq_uuid (fun p => Some (p_id p)) projectId
                             (Rows (projects s))) ;;
     match error (single r) with
     | Some e =>
         if String.eqb (code e) "PGRST116"
         then ret (text_envelope
                     ("Error: Project with ID " ++ dq ++ projectId ++ dq
                      ++ " not found. Use list_projects to see available projects."))
         else ret (text_envelope ("Error switching project: " ++ message e))
     | None =>
         set_currentProjectId (Some projectId) ;;;
         row <- non_null "name" (data (single r)) ;;
         ret (text_envelope
                ("✅ Switched to project: " ++ p_name row ++ nl
                 ++ "ID: " ++ p_id row ++ nl
                 ++ "Description: " ++ or_str (p_description row) "None"))
     end).

(** The statements of [get_project_context]. *)
Definition recent_memories_query (target : string) (s : Store) : Query MemoryRow :=
  limit 5
    (order (descending (by_time m_created_at))
       (eq_uuid m_project_id target (Rows (memories s)))).

Definition project_tasks_query (target : string) (s : Store) : Query TaskRow :=
  eq_uuid t_project_id target (Rows (tasks s)).

Definition get_project_context (projectId : option string) : M Envelope :=
  held <- get_currentProjectId ;;
  match or_opt projectId held with
  | None => throw (JsError "No project ID provided and no current project set")
  | Some targetProjectId =>
      if negb (truthy targetProjectId)
      then throw (JsError "No project ID provided and no current project set")
      else
        r <- select (fun s => eq_uuid (fun p => Some (p_id p)) targetProjectId
                                (Rows (projects s))) ;;
        match error (single r) with
        | Some projectError => throw_pg projectError
        | None =>
            recent <- select (recent_memories_query targetProjectId) ;;
            match error recent with
            | Some memoriesError => throw_pg memoriesError
            | None =>
                listed <- select (project_tasks_query targetProjectId) ;;
                match error listed with
                | Some tasksError => throw_pg tasksError
                | None =>
                    tasks <- non_null "length" (data listed) ;;
                    ret (text_envelope
                           (JSON_stringify (Some 2)
                              (JObj [("project",
                                       match data (single r) with
                                       | Some row => project_json row
                                       | None => JNull
                                       end);
                                     ("recentMemories",
                                       match data recent with
                                       | Some l => JArr (List.map memory_json l)
                                       | None => JNull
                                       end);
                                     ("taskSummary",
                                       summary_json (taskSummary tasks))])))
                end
            end
        end
  end.

(** The statement of [list_tasks]. *)
Definition tasks_query (cur : string) (status priority assignee : option string)
    (s : Store) : Query TaskRow :=
  order (descending (by_time t_created_at))
    (when_truthy assignee (fun _ => eq_missing "tasks" "assignee")
       (when_truthy priority (eq_plain t_priority)
          (when_truthy status (eq_plain t_status)
             (eq_uuid t_project_id cur (Rows (tasks s)))))).

Definition list_tasks (status priority assignee : option string) : M Envelope :=
  held <- get_currentProjectId ;;
  match held with
  | None => throw no_current_project_error
  | Some cur =>
      if negb (truthy cur) then throw no_current_project_error
      else
        r <- select (tasks_query cur status priority assignee) ;;
        match error r with
        | Some e => throw_pg e
        | None =>
            ret (text_envelope
                   (JSON_stringify (Some 2)
                      (match data r with
                       | Some l => JArr (List.map task_json l)
                       | None => JNull
                       end)))
        end
  end.

Definition update_task_status (taskId status : string) (notes : option string)
  : M Envelope :=
  r <- inserting (update_task
                    {| patch_status := status;
                       patch_metadata :=
                         match notes with
                         | Some n =>
                             if truthy n then Some [("statusNote", JStr n)] else None
                         | None => None
                         end |}
                    taskId) ;;
  match error r with
  | Some e => throw_pg e
  | None =>
      row <- non_null "title" (data r) ;;
      ret (text_envelope
             ("Task status updated to " ++ status ++ ": " ++ t_title row))
  end.

End Tools.

End DirectTools.

(** ** Further sample worlds *)

Module Samples.
Import Remote.

(** A listed project whose [id] is empty. *)
Definition nameless : Entity :=
  {| id := ""; attrs := [("name", JStr "Nameless")] |}.

(** A response with a failure status. *)
Definition refusal (st : nat) (txt : string) (b : outcome Payload) : Response :=
  {| status := st; statusText := txt; json_body := b |}.

Module SelfHosted.
Import Direct DirectTools Demo.SelfHosted.

(** An embedding service that answers with the length of the text. *)
Definition embedder : Embedder :=
  {| Vec := list Z;
     generateEmbedding := fun text => Fulfilled [Z.of_nat (String.length text)] |}.

Definition code_id : string := "cccccccc-cccc-4ccc-8ccc-cccccccccccc".
Definition decision_id : string := "dddddddd-dddd-4ddd-8ddd-dddddddddddd".
Definition done_id : string := "eeeeeeee-eeee-4eee-8eee-eeeeeeeeeeee".
Definition dropped_id : string := "ffffffff-ffff-4fff-8fff-ffffffffffff".

Definition memo (i content kind : string) (importance at_ : Z) : MemoryRow :=
  {| m_id := i; m_project_id := Some project_id; m_content := content;
     m_memory_type := Some kind; m_importance := importance;
     m_created_at := at_ |}.

Definition code_memo : MemoryRow := memo code_id "use tabs" "code" 5 30.
Definition decision_memo : MemoryRow := memo decision_id "ship friday" "decision" 7 40.

Definition done : TaskRow := task done_id "Set up CI" "completed" "low" 5.
Definition dropped : TaskRow := task dropped_id "Port to Vue" "cancelled" "low" 6.

(** U+00A0 and U+2003, as their UTF-8 bytes. *)
Definition no_break_space : string :=
  String (ascii_of_nat 194) (String (ascii_of_nat 160) EmptyString).

Definition em_space : string :=
  String (ascii_of_nat 226)
    (String (ascii_of_nat 128) (String (ascii_of_nat 131) EmptyString)).

(** The sample store with two memories and four tasks. *)
Definition library : Store :=
  {| projects := [workspace]; memories := [code_memo; decision_memo];
     tasks := [urgent; routine; done; dropped];
     now := 100; serial := 0; outage := None |}.

(** The sample store with every open task closed. *)
Definition archive : Store :=
  {| projects := [workspace]; memories := []; tasks := [done; dropped];
     now := 100; serial := 0; outage := None |}.

End SelfHosted.

End Samples.

(** * Properties of the JavaScript layer *)

Lemma truthy_true_iff (s : string) : truthy s = true <-> s <> "".
Proof.
  destruct s; cbn; split; intro H; try discriminate; try congruence.
Qed.

(** * Properties of the hosted-API server *)

Module RemoteFacts.
Import Remote.

Section Facts.
Context `{B : Backend}.

Lemma request_run method endpoint body m :
  let answer := fst (net (api_request method endpoint body) (world m)) in
  let m' := snd (request method endpoint body m) in
  fst (request method endpoint body m) = settlement_of answer
  /\ currentProjectId m' = currentProjectId m
  /\ sent m' = (sent m ++ traffic_of method endpoint body answer)%list
  /\ awaited m' = (awaited m ++ [api_request method endpoint body])%list
  /\ exists extra, detached m' = (detached m ++ extra)%list
                  /\ Forall fulfilled extra.
Proof.
  unfold request, bind, try_catch, fetch, trackUsage, fetch_detached,
    throw, ret, settle, settlement_of, traffic_of, rethrown.
  cbn.
  destruct (net (api_request method endpoint body) (world m)) as [[response|t] w1]
    eqn:Hnet; cbn.
  - destruct (ok response) eqn:Hok; cbn.
    + destruct (net (usage_request endpoint method) w1) as [tracked w2]; cbn.
      repeat split; try reflexivity.
      * now rewrite <- app_assoc.
      * exists [catch_ignore tracked]; split; [reflexivity|].
        constructor; [|constructor].
        destruct tracked; cbn; eexists; reflexivity.
    + repeat split; try reflexivity.
      exists []; split; [now rewrite app_nil_r | constructor].
  - destruct (instanceof_Error t); cbn;
      (repeat split; try reflexivity;
       exists []; split; [now rewrite app_nil_r | constructor]).
Qed.

Lemma request_keeps_current method endpoint body m :
  currentProjectId (snd (request method endpoint body m)) = currentProjectId m.
Proof. apply request_run. Qed.

Lemma guarded_fulfilled {S} (c : Eff.M S Envelope) (m : S) :
  fulfilled (fst (guarded c m)).
Proof.
  unfold guarded, try_catch, ret.
  destruct (c m) as [[e|t] m']; cbn; eexists; reflexivity.
Qed.

Lemma adopt_marked_run m :
  adopt_marked m =
  match marked_id (fst (getCurrentProject m)) with
  | Some projectId =>
      (Fulfilled (Some projectId),
       with_current (Some projectId) (snd (getCurrentProject m)))
  | None => (Fulfilled None, snd (getCurrentProject m))
  end.
Proof.
  unfold adopt_marked, try_catch, bind, settle, marked_id, with_current.
  destruct (getCurrentProject m) as [[response|t] m1]; cbn; [|reflexivity].
  destruct (prop_project response) as [[p|]|t]; cbn; try reflexivity.
  destruct (truthy (id p)); reflexivity.
Qed.

Lemma adopt_first_run m :
  adopt_first m =
  match first_listed (fst (listProjects m)) with
  | Some first =>
      let m2 := with_current (Some (id first)) (snd (listProjects m)) in
      (match fst (setCurrentProject (id first) m2) with
       | Fulfilled _ => Fulfilled (Some (id first))
       | Rejected _ => Fulfilled None
       end,
       snd (setCurrentProject (id first) m2))
  | None => (Fulfilled None, snd (listProjects m))
  end.
Proof.
  unfold adopt_first, try_catch, bind, settle, first_listed, with_current.
  destruct (listProjects m) as [[response|t] m1]; cbn; [|reflexivity].
  destruct (projects_or_self response) as [[|e|[|first rest]|w]|t]; cbn;
    try reflexivity.
  destruct (setCurrentProject (id first) _) as [[v|t] m2]; reflexivity.
Qed.

Lemma ensure_held m c :
  currentProjectId m = Some c -> truthy c = true ->
  ensureCurrentProject m = (Fulfilled c, m).
Proof.
  intros Hc Ht. unfold ensureCurrentProject, bind, get_currentProjectId.
  cbn. rewrite Hc. cbn. rewrite Ht. reflexivity.
Qed.

Lemma ensure_resolving m :
  truthy_opt (currentProjectId m) = false ->
  ensureCurrentProject m =
  match adopt_marked m with
  | (Fulfilled (Some projectId), m1) => (Fulfilled projectId, m1)
  | (Fulfilled None, m1) =>
      match adopt_first m1 with
      | (Fulfilled (Some projectId), m2) => (Fulfilled projectId, m2)
      | (Fulfilled None, m2) => (Rejected (JsError no_project_message), m2)
      | (Rejected t, m2) => (Rejected t, m2)
      end
  | (Rejected t, m1) => (Rejected t, m1)
  end.
Proof.
  intros Hf. unfold ensureCurrentProject, bind, get_currentProjectId.
  cbn. rewrite Hf.
  destruct (adopt_marked m) as [[[pid|]|t] m1]; try reflexivity.
  destruct (adopt_first m1) as [[[pid|]|t] m2]; reflexivity.
Qed.

Lemma with_current_sets v m : currentProjectId (with_current v m) = v.
Proof. reflexivity. Qed.




Lemma ensure_sets_current m projectId m1 :
  ensureCurrentProject m = (Fulfilled projectId, m1) ->
  truthy projectId = true ->
  currentProjectId m1 = Some projectId.
Proof.
  intros Hrun Ht.
  destruct (truthy_opt (currentProjectId m)) eqn:Hheld.
  - destruct (currentProjectId m) as [c|] eqn:Hc; [|discriminate].
    cbn in Hheld. rewrite (ensure_held m c Hc Hheld) in Hrun.
    inversion Hrun; subst. exact Hc.
  - rewrite (ensure_resolving m Hheld), adopt_marked_run in Hrun.
    destruct (marked_id (fst (getCurrentProject m))) as [pid|].
    + inversion Hrun; subst. reflexivity.
    + rewrite adopt_first_run in Hrun.
      destruct (first_listed (fst (listProjects (snd (getCurrentProject m)))))
        as [first|]; [|discriminate].
      cbn zeta in Hrun.
      destruct (fst (setCurrentProject (id first) _)) eqn:Hput;
        [|discriminate].
      inversion Hrun; subst.
      unfold setCurrentProject. rewrite request_keeps_current. reflexivity.
Qed.

(** C9. Resolution is idempotent: once [ensureCurrentProject] has
    returned a project id (a truthy one, which is what the program
    takes for a project), calling it again returns the same id and
    leaves the machine as it is -- no request is issued. *)
Theorem resolution_idempotent m projectId m1 :
  ensureCurrentProject m = (Fulfilled projectId, m1) ->
  truthy projectId = true ->
  ensureCurrentProject m1 = (Fulfilled projectId, m1).
Proof.
  intros Hrun Ht.
  apply ensure_held; [|exact Ht].
  now apply (ensure_sets_current m).
Qed.

(** C10. [set_current_project] is not atomic on error: whenever the
    service fails the [PUT /projects/current] request (transport
    failure, a status that is not a success, an unreadable body), the
    tool answers with an error envelope, yet [currentProjectId]
    already holds the requested id and keeps it. *)
Theorem set_current_project_not_atomic projectId m t :
  settlement_of
    (fst (net (api_request "PUT" "/projects/current"
                 (Some (JObj [("projectId", JStr projectId)])))
              (world m))) = Rejected t ->
  fst (set_current_project projectId m) = Fulfilled (error_envelope t)
  /\ currentProjectId (snd (set_current_project projectId m)) = Some projectId.
Proof.
  intros Hfail.
  pose proof (request_run "PUT" "/projects/current"
                (Some (JObj [("projectId", JStr projectId)]))
                (with_current (Some projectId) m)) as Hrun.
  cbn zeta in Hrun. destruct Hrun as (Hres & Hcur & _).
  change (world (with_current (Some projectId) m)) with (world m) in Hres.
  rewrite Hfail in Hres.
  unfold set_current_project, guarded, try_catch, bind, set_currentProjectId,
    setCurrentProject.
  unfold with_current, set_currentProjectId in Hres, Hcur. cbn in Hres, Hcur.
  cbn.
  destruct (request "PUT" "/projects/current" _ _) as [r m'] eqn:Hreq.
  cbn in Hres, Hcur. subst r. cbn. split; [reflexivity|exact Hcur].
Qed.

(** C1, on the hosted-API server. [create_project] neither assigns
    [currentProjectId] nor issues the [PUT] of [setCurrentProject]:
    whatever the service answers, the reference is what it was before
    the call and every request of the call is a [POST]. *)
Theorem create_project_leaves_current name description m :
  currentProjectId (snd (create_project name description m)) = currentProjectId m
  /\ exists extra,
       sent (snd (create_project name description m)) = (sent m ++ extra)%list
       /\ Forall (fun r => method r = "POST") extra.
Proof.
  pose proof (request_run "POST" "/projects"
                (Some (JObj [("name", JStr name);
                             ("description", of_opt_str description)])) m) as Hrun.
  cbn zeta in Hrun. destruct Hrun as (_ & Hcur & Hsent & _).
  unfold create_project, guarded, try_catch, bind, createProject, settle, ret.
  destruct (request "POST" "/projects" _ m) as [[response|t] m1] eqn:Hreq;
    cbn in Hcur, Hsent; cbn.
  - assert (Hpost : Forall (fun r => method r = "POST")
                      (traffic_of "POST" "/projects"
                         (Some (JObj [("name", JStr name);
                                      ("description", of_opt_str description)]))
                         (fst (net (api_request "POST" "/projects"
                            (Some (JObj [("name", JStr name);
                                         ("description", of_opt_str description)])))
                            (world m))))).
    { unfold traffic_of. constructor; [reflexivity|].
      destruct (fst (net _ (world m))) as [resp|]; [|constructor].
      destruct (ok resp); repeat constructor. }
    destruct (project_or_self response) as [project|t]; cbn.
    + destruct (prop_id project) as [j|t]; cbn; (split; [exact Hcur|]);
        eexists; (split; [exact Hsent|exact Hpost]).
    + split; [exact Hcur|]. eexists; split; [exact Hsent|exact Hpost].
  - split; [exact Hcur|]. eexists; split; [exact Hsent|].
    unfold traffic_of. constructor; [reflexivity|].
    destruct (fst (net _ (world m))) as [resp|]; [|constructor].
    destruct (ok resp); repeat constructor.
Qed.

(** C8. Usage tracking never blocks or fails the call it follows:
    [trackUsage] is fulfilled whatever becomes of its request, which
    no [await] waits for and whose rejection is swallowed; and the
    settlement of [request] is a function of the answer to its own
    request alone, the only request it awaits. *)
Theorem usage_tracking_detached method endpoint body m :
  (forall m0,
      fst (trackUsage endpoint method m0) = Fulfilled tt
      /\ awaited (snd (trackUsage endpoint method m0)) = awaited m0
      /\ sent (snd (trackUsage endpoint method m0)) =
         (sent m0 ++ [usage_request endpoint method])%list
      /\ exists d, detached (snd (trackUsage endpoint method m0)) =
                   (detached m0 ++ [d])%list
                   /\ fulfilled d)
  /\ fst (request method endpoint body m) =
     settlement_of (fst (net (api_request method endpoint body) (world m)))
  /\ awaited (snd (request method endpoint body m)) =
     (awaited m ++ [api_request method endpoint body])%list
  /\ exists extra,
       detached (snd (request method endpoint body m)) = (detached m ++ extra)%list
       /\ Forall fulfilled extra.
Proof.
  split.
  - intros m0. unfold trackUsage, fetch_detached.
    destruct (net (usage_request endpoint method) (world m0)) as [tracked w1].
    cbn. repeat split.
    exists (catch_ignore tracked). split; [reflexivity|].
    destruct tracked; cbn; eexists; reflexivity.
  - pose proof (request_run method endpoint body m) as Hrun.
    cbn zeta in Hrun. destruct Hrun as (Hres & _ & _ & Haw & Hdet).
    repeat split; assumption.
Qed.

(** The hosted-API [get_memories] answers the same way whatever filter it
    is given. *)
Lemma get_memories_reads_no_argument memoryType timeRange m :
  get_memories memoryType timeRange m = get_memories None None m.
Proof. reflexivity. Qed.

End Facts.

End RemoteFacts.

(** * Runs of the hosted-API server on the sample service *)

Module RemoteRuns.
Import Remote RemoteFacts Demo.Hosted.

#[local] Existing Instance backend.


Lemma resolution_idempotent_witness :
  let first :=
    ensureCurrentProject (machine None (service None [beta; alpha] false)) in
  fst first = Fulfilled "p-beta"
  /\ ensureCurrentProject (snd first) = (Fulfilled "p-beta", snd first).
Proof.
  cbn zeta. split; [vm_compute; reflexivity|].
  apply (resolution_idempotent
           (machine None (service None [beta; alpha] false)) "p-beta").
  - vm_compute. reflexivity.
  - reflexivity.
Defined.

Lemma set_current_project_not_atomic_witness :
  let stuck := machine (Some "p-alpha") (service (Some alpha) [alpha; beta] true) in
  fst (set_current_project "p-beta" stuck) =
  Fulfilled (text_envelope "Error: cannot mark project")
  /\ currentProjectId (snd (set_current_project "p-beta" stuck)) = Some "p-beta".
Proof.
  cbn zeta.
  apply (set_current_project_not_atomic "p-beta"
           (machine (Some "p-alpha") (service (Some alpha) [alpha; beta] true))
           (JsError "cannot mark project")).
  vm_compute. reflexivity.
Defined.

(** C7, on the sample service. Asked for the memories of type [code],
    the hosted-API [get_memories] sends a request that names no type and
    no time range, and returns the memory of type [decision] along with
    the one of type [code]. *)
Theorem get_memories_ignores_filters :
  let m := machine (Some "p-alpha") (service (Some alpha) [alpha] false) in
  fst (get_memories (Some "code") None m) =
  Fulfilled (text_envelope
    "[{id:m-1;content:use tabs;type:code;importance:5;created_at:2025-01-02;};{id:m-2;content:ship friday;type:decision;importance:7;created_at:2025-01-01;};]")
  /\ List.map url (sent (snd (get_memories (Some "code") None m))) =
     [ "https://api.example.test/projects/p-alpha/memories?limit=20";
       "https://api.example.test/usage/track" ]
  /\ List.map body (sent (snd (get_memories (Some "code") None m))) =
     [ None;
       Some "{endpoint:/projects/p-alpha/memories?limit=20;method:GET;}" ]
  /\ get_memories (Some "code") None m = get_memories None None m.
Proof. cbn zeta. repeat split; vm_compute; reflexivity. Qed.

(** On the sample service, [create_project] succeeds and the session
    stays on the project it was on; [get_current_project] still answers
    with that one. *)
Lemma hosted_create_project_then_current :
  let before := machine (Some "p-alpha") (service (Some alpha) [alpha; beta] false) in
  let after := snd (create_project "Gamma" None before) in
  fst (create_project "Gamma" None before) =
  Fulfilled (text_envelope
    "{id:p-gamma;name:Gamma;description:undefined;created_at:undefined;}")
  /\ currentProjectId after = Some "p-alpha"
  /\ fst (get_current_project after) =
     Fulfilled (text_envelope "{id:p-alpha;name:Alpha;description:undefined;}").
Proof. cbn zeta. repeat split; vm_compute; reflexivity. Qed.

(** C6 as stated fails on the hosted-API server: 75 lies within 1-100 and
    the call is refused. *)
Lemma hosted_search_memory_refuses_75 :
  let m := machine (Some "p-alpha") (service (Some alpha) [alpha] false) in
  (1 <= 75 <= 100)%Z
  /\ call_search_memory "notes" (Some 75%Z) m = (Fulfilled InvalidParams, m).
Proof. cbn zeta. split; [lia|reflexivity]. Qed.

End RemoteRuns.

(** * Properties of the self-hosted server *)

Module DirectFacts.
Import Direct.

Section Sorting.
Context {A : Type} (le : A -> A -> bool).

Lemma insert_sorted_perm x l : Permutation (insert_sorted le x l) (x :: l).
Proof.
  induction l as [|y rest IH]; cbn; [reflexivity|].
  destruct (le x y); [reflexivity|].
  rewrite IH. apply perm_swap.
Qed.

Lemma sort_rows_perm l : Permutation (sort_rows le l) l.
Proof.
  induction l as [|x rest IH]; cbn; [reflexivity|].
  unfold sort_rows in *. cbn.
  rewrite insert_sorted_perm. now constructor.
Qed.

Lemma sort_rows_in l x : In x (sort_rows le l) <-> In x l.
Proof.
  split; apply Permutation_in; [|symmetry]; apply sort_rows_perm.
Qed.

Hypothesis le_total : forall a b, le a b = true \/ le b a = true.
Hypothesis le_trans : forall a b c, le a b = true -> le b c = true -> le a c = true.

Lemma insert_sorted_sorted x l :
  StronglySorted (fun a b => le a b = true) l ->
  StronglySorted (fun a b => le a b = true) (insert_sorted le x l).
Proof.
  induction 1 as [|y rest Hs IH Hall]; cbn.
  - repeat constructor.
  - destruct (le x y) eqn:Hxy.
    + constructor; [now constructor|].
      constructor; [exact Hxy|].
      eapply Forall_impl; [|exact Hall]. intros z Hz. now apply (le_trans x y z).
    + constructor; [exact IH|].
      assert (Hyx : le y x = true)
        by (destruct (le_total x y) as [H|H]; [congruence|exact H]).
      apply Forall_forall. intros z Hz.
      apply (Permutation_in _ (insert_sorted_perm x rest)) in Hz.
      destruct Hz as [<-|Hz]; [exact Hyx|].
      rewrite Forall_forall in Hall. now apply Hall.
Qed.

Lemma sort_rows_sorted l :
  StronglySorted (fun a b => le a b = true) (sort_rows le l).
Proof.
  induction l as [|x rest IH]; cbn; [constructor|].
  now apply insert_sorted_sorted.
Qed.

End Sorting.

Lemma by_time_total {A} (col : A -> Z) a b :
  le_of (descending (by_time col)) a b = true
  \/ le_of (descending (by_time col)) b a = true.
Proof.
  unfold le_of, descending, by_time.
  destruct (Z.compare_spec (col b) (col a)), (Z.compare_spec (col a) (col b));
    auto; lia.
Qed.

Lemma by_time_trans {A} (col : A -> Z) a b c :
  le_of (descending (by_time col)) a b = true ->
  le_of (descending (by_time col)) b c = true ->
  le_of (descending (by_time col)) a c = true.
Proof.
  unfold le_of, descending, by_time.
  destruct (Z.compare_spec (col b) (col a)), (Z.compare_spec (col c) (col b)),
    (Z.compare_spec (col c) (col a)); try discriminate; auto; lia.
Qed.

Lemma by_time_newer {A} (col : A -> Z) a b :
  le_of (descending (by_time col)) a b = true <-> (col b <= col a)%Z.
Proof.
  unfold le_of, descending, by_time.
  destruct (Z.compare_spec (col b) (col a)); split; intros; try lia;
    try reflexivity; discriminate.
Qed.

Lemma lower_hex_printed c : is_hex c = true -> printed_digit (lower_hex c).
Proof.
  destruct c as [[] [] [] [] [] [] [] []]; vm_compute; intros;
    try discriminate; repeat split.
Qed.

Lemma uuid_pairs_digits n i src digits tail :
  uuid_pairs n i src = Some (digits, tail) ->
  String.length digits = (2 * n)%nat
  /\ Forall printed_digit (list_ascii_of_string digits).
Proof.
  revert i src digits tail.
  induction n as [|n IH]; intros i src digits tail; cbn [uuid_pairs].
  - intros [= <- <-]. split; [reflexivity|constructor].
  - destruct src as [|a [|b rest]]; try discriminate.
    destruct (is_hex a) eqn:Ha; [|discriminate].
    destruct (is_hex b) eqn:Hb; [|discriminate].
    cbn [andb].
    match goal with
    | |- context [uuid_pairs n (S i) ?r] =>
        destruct (uuid_pairs n (S i) r) as [[ds tl]|] eqn:Hrest; [|discriminate]
    end.
    intros [= <- <-]. apply IH in Hrest. destruct Hrest as (Hlen & Hall).
    split.
    + cbn [String.length]. rewrite Hlen. lia.
    + cbn [list_ascii_of_string].
      constructor; [now apply lower_hex_printed|].
      constructor; [now apply lower_hex_printed|exact Hall].
Qed.

(** A value is read back from the text it prints as. *)
Lemma uuid_in_printed v u : uuid_in v = Some u -> uuid_in u = Some u.
Proof.
  unfold uuid_in at 1.
  assert (Hgen : forall closing src,
             match uuid_pairs 16 0 src with
             | Some (digits, tail) =>
                 if String.eqb tail closing then Some (uuid_out digits) else None
             | None => None
             end = Some u -> uuid_in u = Some u).
  { intros closing src.
    destruct (uuid_pairs 16 0 src) as [[digits tail]|] eqn:Hp; [|discriminate].
    destruct (String.eqb tail closing); [|discriminate].
    intros [= <-]. apply uuid_pairs_digits in Hp. destruct Hp as (Hlen & Hall).
    do 32 (destruct digits as [|? digits]; [discriminate|]).
    destruct digits; [|discriminate]. clear Hlen.
    cbn [list_ascii_of_string] in Hall.
    repeat match goal with
           | H : Forall _ (_ :: _) |- _ => inversion H; subst; clear H
           end.
    unfold printed_digit in *.
    repeat match goal with
           | H : _ /\ _ |- _ => destruct H
           end.
    unfold uuid_out. cbn [substring append].
    unfold uuid_in.
    repeat match goal with
           | H : ?x = _ |- context [?x] => rewrite H
           | _ => progress cbn
           end.
    reflexivity. }
  destruct v as [|c r]; [apply Hgen|].
  destruct (Ascii.eqb c "{"); apply Hgen.
Qed.

Section Facts.
Context `{P : Platform}.

(** C3, on the self-hosted server. [create_task] has no [catch]: called
    with no current project it throws, and the error leaves the handler
    instead of being rendered into an envelope. *)
Theorem create_task_lets_error_escape title description priority dependencies s :
  create_task title description priority dependencies
    {| currentProjectId := None; store := s |} =
  (Rejected no_current_project_error, {| currentProjectId := None; store := s |}).
Proof. reflexivity. Qed.

Lemma list_projects_lets_error_escape held s e :
  outage s = Some e ->
  fst (list_projects {| currentProjectId := held; store := s |}) =
  Rejected (JsError (message e)).
Proof.
  intros H. unfold list_projects, bind, select, run, throw_pg, throw. cbn.
  rewrite H. reflexivity.
Qed.

Lemma firstn_incl {A} (n : nat) (l : list A) x : In x (firstn n l) -> In x l.
Proof.
  revert n. induction l as [|y l IH]; intros [|n]; cbn; try tauto.
  intros [->|H]; [now left|right; eauto].
Qed.

Lemma limit_rows {A} n (q : Query A) rows :
  limit n q = Rows rows -> exists l, q = Rows l /\ rows = firstn n l.
Proof. destruct q; cbn; intros H; [|discriminate]. injection H as <-. eauto. Qed.

Lemma order_rows {A} c (q : Query A) rows :
  order c q = Rows rows -> exists l, q = Rows l /\ rows = sort_rows (le_of c) l.
Proof. destruct q; cbn; intros H; [|discriminate]. injection H as <-. eauto. Qed.

Lemma where_rows {A} keep (q : Query A) rows :
  where_ keep q = Rows rows -> exists l, q = Rows l /\ rows = filter keep l.
Proof. destruct q; cbn; intros H; [|discriminate]. injection H as <-. eauto. Qed.

Lemma eq_uuid_rows {A} (col : A -> option string) v (q : Query A) rows :
  eq_uuid col v q = Rows rows ->
  exists u l,
    uuid_in v = Some u
    /\ q = Rows l /\ rows = filter (fun r => opt_eqb (col r) u) l.
Proof.
  destruct q; cbn; [|discriminate].
  destruct (uuid_in v) as [u|]; intros H; [|discriminate].
  injection H as <-. eauto.
Qed.

Lemma opt_eqb_eq o v : opt_eqb o v = true <-> o = Some v.
Proof.
  destruct o as [x|]; cbn; [|split; discriminate].
  rewrite String.eqb_eq. split; congruence.
Qed.

Lemma suggestion_status held s rows :
  suggestion_query held s = Rows rows ->
  Forall (fun t => t_status t = "pending" \/ t_status t = "in_progress") rows.
Proof.
  unfold suggestion_query. intros H.
  apply limit_rows in H. destruct H as (l1 & H & ->).
  apply order_rows in H. destruct H as (l2 & H & ->).
  apply where_rows in H. destruct H as (l3 & _ & ->).
  apply Forall_forall. intros t Ht.
  apply firstn_incl, sort_rows_in, filter_In in Ht. destruct Ht as [_ Hst].
  cbn in Hst. rewrite orb_false_r in Hst.
  apply orb_true_iff in Hst. destruct Hst as [H|H]; apply String.eqb_eq in H; auto.
Qed.

Lemma sorted_newest_first (rows : list MemoryRow) :
  StronglySorted
    (fun a b => le_of (descending (by_time m_created_at)) a b = true) rows ->
  StronglySorted (fun a b => (m_created_at b <= m_created_at a)%Z) rows.
Proof.
  induction 1 as [|x l Hs IH Hall]; constructor; [exact IH|].
  eapply Forall_impl; [|exact Hall].
  intros y Hy. now apply by_time_newer in Hy.
Qed.

(** The statement of the self-hosted [get_memories] keeps the rows of the
    project the reference denotes that have the requested type and lie
    within the requested bounds, newest first. *)
Lemma memories_query_spec cur memoryType timeRange s rows :
  memories_query cur memoryType timeRange s = Rows rows ->
  Forall (fun r =>
            m_project_id r = uuid_in cur
            /\ (forall ty, memoryType = Some ty -> truthy ty = true ->
                           m_memory_type r = Some ty)
            /\ (forall tr a, timeRange = Some tr -> range_start tr = Some a ->
                             (a <= m_created_at r)%Z)
            /\ (forall tr b, timeRange = Some tr -> range_end tr = Some b ->
                             (m_created_at r <= b)%Z)) rows
  /\ StronglySorted (fun a b => (m_created_at b <= m_created_at a)%Z) rows.
Proof.
  unfold memories_query. intros H.
  apply order_rows in H. destruct H as (l1 & H & ->).
  split.
  - apply Forall_forall. intros r Hr. apply sort_rows_in in Hr.
    assert (Hend : forall tr b, timeRange = Some tr -> range_end tr = Some b ->
                                (m_created_at r <= b)%Z).
    { intros tr b -> Hb. rewrite Hb in H. cbn in H.
      apply where_rows in H. destruct H as (l2 & _ & ->).
      apply filter_In in Hr. destruct Hr as [_ Hr]. lia. }
    assert (exists l2,
               when_some (match timeRange with Some t => range_start t | None => None end)
                 (gte m_created_at)
                 (when_truthy memoryType (eq_text m_memory_type)
                    (eq_uuid m_project_id cur (Rows (memories s)))) = Rows l2
               /\ In r l2) as (l2 & H2 & Hr2).
    { destruct (match timeRange with Some t => range_end t | None => None end);
        cbn in H.
      - apply where_rows in H. destruct H as (l2 & H & ->).
        apply filter_In in Hr. destruct Hr as [Hr _]. eauto.
      - eauto. }
    clear H Hr.
    assert (Hstart : forall tr a, timeRange = Some tr -> range_start tr = Some a ->
                                  (a <= m_created_at r)%Z).
    { intros tr a -> Ha. rewrite Ha in H2. cbn in H2.
      apply where_rows in H2. destruct H2 as (l3 & _ & ->).
      apply filter_In in Hr2. destruct Hr2 as [_ Hr2]. lia. }
    assert (exists l3,
               when_truthy memoryType (eq_text m_memory_type)
                 (eq_uuid m_project_id cur (Rows (memories s))) = Rows l3
               /\ In r l3) as (l3 & H3 & Hr3).
    { destruct (match timeRange with Some t => range_start t | None => None end);
        cbn in H2.
      - apply where_rows in H2. destruct H2 as (l3 & H2 & ->).
        apply filter_In in Hr2. destruct Hr2 as [Hr2 _]. eauto.
      - eauto. }
    clear H2 Hr2.
    assert (Htype : forall ty, memoryType = Some ty -> truthy ty = true ->
                               m_memory_type r = Some ty).
    { intros ty -> Hty. cbn in H3. rewrite Hty in H3.
      apply where_rows in H3. destruct H3 as (l4 & _ & ->).
      apply filter_In in Hr3. destruct Hr3 as [_ Hr3]. now apply opt_eqb_eq. }
    assert (exists l4, eq_uuid m_project_id cur (Rows (memories s)) = Rows l4
                       /\ In r l4) as (l4 & H4 & Hr4).
    { unfold when_truthy in H3. destruct memoryType as [ty|]; [|eauto].
      destruct (truthy ty); [|eauto].
      apply where_rows in H3. destruct H3 as (l4 & H3 & ->).
      apply filter_In in Hr3. destruct Hr3 as [Hr3 _]. eauto. }
    apply eq_uuid_rows in H4. destruct H4 as (u & l5 & Hu & _ & ->).
    apply filter_In in Hr4. destruct Hr4 as [_ Hr4].
    apply opt_eqb_eq in Hr4. rewrite Hu. auto.
  - apply sorted_newest_first, sort_rows_sorted.
    + apply by_time_total.
    + apply by_time_trans.
Qed.

(** The self-hosted [create_project] assigns [currentProjectId] once the
    row is in the store. *)
Lemma create_project_sets_current name description metadata m :
  truthy (trim name) = true ->
  forall row s',
    insert_project
      [("name", CText (trim name));
       ("description",
         match description with
         | Some d => if truthy (trim d) then CText (trim d) else CNull
         | None => CNull
         end);
       ("metadata", CJson (match metadata with Some f => f | None => [] end))]
      (store m) = (succeed [row], s') ->
    currentProjectId (snd (create_project name description metadata m)) =
    Some (p_id row)
    /\ store (snd (create_project name description metadata m)) = s'.
Proof.
  intros Hname row s' Hins.
  unfold create_project, guarded, try_catch, bind, inserting.
  rewrite Hname. cbn. rewrite Hins. cbn. split; reflexivity.
Qed.

(** The object [break_down_task] inserts for one subtask. *)
Lemma subtask_payloads_keys held taskId task :
  List.map (List.map fst) (subtask_payloads held taskId task) =
  [ ["title"; "description"; "priority"; "project_id"; "status"; "dependencies"];
    ["title"; "description"; "priority"; "project_id"; "status"; "dependencies"];
    ["title"; "description"; "priority"; "project_id"; "status"; "dependencies"] ].
Proof. reflexivity. Qed.

Lemma subtask_row fresh s title description priority held taskId row :
  task_row fresh s
    [("title", CText title); ("description", CText description);
     ("priority", CText priority); ("project_id", CText held);
     ("status", CText "pending"); ("dependencies", CArray [taskId])] = inr row ->
  exists project parent,
    uuid_in held = Some project /\ uuid_in taskId = Some parent
    /\ row = {| t_id := fresh; t_project_id := Some project; t_title := title;
                t_description := Some description; t_status := "pending";
                t_priority := priority; t_dependencies := Some [parent];
                t_metadata := []; t_created_at := now s |}.
Proof.
  unfold task_row. cbn.
  unfold col_project_ref, col_enum, col_dependencies. cbn.
  destruct (uuid_in held) as [project|]; cbn; [|discriminate].
  destruct (mem project (List.map p_id (projects s))); cbn; [|discriminate].
  match goal with
  | |- context [if ?b then inr priority else _] => destruct b
  end; cbn; [|discriminate].
  destruct (uuid_in taskId) as [parent|]; cbn; [|discriminate].
  match goal with
  | |- context [if ?b then inl (unique_violation "id") else _] => destruct b
  end; cbn; [discriminate|].
  intros H. injection H as <-. eauto.
Qed.

Lemma task_rows_three p1 p2 p3 s rows s' :
  task_rows [p1; p2; p3] s = inr (rows, s') ->
  exists r1 r2 r3 s1 s2,
    rows = [r1; r2; r3]
    /\ tasks s' = (tasks s ++ [r1; r2; r3])%list
    /\ task_row (gen_random_uuid (serial s)) s p1 = inr r1
    /\ now s1 = now s /\ task_row (gen_random_uuid (serial s1)) s1 p2 = inr r2
    /\ now s2 = now s /\ task_row (gen_random_uuid (serial s2)) s2 p3 = inr r3.
Proof.
  cbn. unfold need.
  destruct (task_row (gen_random_uuid (serial s)) s p1) as [e|r1] eqn:H1;
    [discriminate|].
  match goal with
  | |- context [task_row ?f ?s1 p2] =>
      destruct (task_row f s1 p2) as [e|r2] eqn:H2; [discriminate|];
      set (st1 := s1) in *
  end.
  match goal with
  | |- context [task_row ?f ?s2 p3] =>
      destruct (task_row f s2 p3) as [e|r3] eqn:H3; [discriminate|];
      set (st2 := s2) in *
  end.
  cbn. intros H. injection H as <- <-.
  exists r1, r2, r3, st1, st2. cbn.
  repeat split; try assumption.
  now rewrite <- !app_assoc.
Qed.

(** C4, as the code has it. A [break_down_task] call that succeeds has
    appended exactly three task rows to the store. The parent is the
    task whose id [taskId] denotes, in whatever spelling the id was
    given; each new row depends on the parent alone, is pending and
    belongs to the project the current reference denotes; the research
    and implement rows carry the parent's priority and the test row
    carries [medium]. The objects inserted have the six keys below and
    no other: no parent reference is written. *)
Theorem break_down_task_creates_three taskId targetComplexity m e m' :
  break_down_task taskId targetComplexity m = (Fulfilled e, m') ->
  exists held task r1 r2 r3,
    currentProjectId m = Some held
    /\ In task (tasks (store m)) /\ uuid_in taskId = Some (t_id task)
    /\ tasks (store m') = (tasks (store m) ++ [r1; r2; r3])%list
    /\ Forall (fun r => t_dependencies r = Some [t_id task]
                        /\ t_status r = "pending"
                        /\ t_project_id r = uuid_in held) [r1; r2; r3]
    /\ t_title r1 = "Research: " ++ t_title task
    /\ t_title r2 = "Implement: " ++ t_title task
    /\ t_title r3 = "Test: " ++ t_title task
    /\ t_priority r1 = t_priority task
    /\ t_priority r2 = t_priority task
    /\ t_priority r3 = "medium"
    /\ Forall (fun p => List.map fst p =
                        ["title"; "description"; "priority"; "project_id";
                         "status"; "dependencies"])
         (subtask_payloads (Some held) taskId task).
Proof.
  unfold break_down_task, bind, get_currentProjectId, select, inserting.
  cbv beta iota zeta.
  destruct (currentProjectId m) as [held|] eqn:Hheld;
    [|cbn; discriminate].
  unfold truthy_opt.
  destruct (truthy held) eqn:Htruthy; [|cbn; discriminate].
  cbv beta iota zeta delta [negb].
  destruct (run (store m)
              (eq_uuid (fun t => Some (t_id t)) taskId (Rows (tasks (store m)))))
    as [d er] eqn:Hrun.
  unfold single, error, data, throw_pg, throw, non_null, ret, succeed, fail.
  destruct er as [er|]; [discriminate|].
  destruct d as [[|task [|]]|]; try discriminate.
  cbv beta iota zeta.
  unfold insert_tasks.
  destruct (outage (store m)) as [o|] eqn:Hout; [discriminate|].
  destruct (task_rows (subtask_payloads (Some held) taskId task) (store m))
    as [er|[rows s']] eqn:Hrows; [discriminate|].
  cbv beta iota zeta.
  intros H. injection H as _ <-. cbn [store].
  (* the parent row *)
  unfold run in Hrun. rewrite Hout in Hrun.
  destruct (eq_uuid (fun t => Some (t_id t)) taskId (Rows (tasks (store m))))
    as [l|er] eqn:Hparent; [|discriminate].
  injection Hrun as ->.
  apply eq_uuid_rows in Hparent.
  destruct Hparent as (u & l0 & Hu & Hl0 & Hl). injection Hl0 as <-.
  assert (Htask : In task (filter (fun r => opt_eqb (Some (t_id r)) u)
                             (tasks (store m))))
    by (rewrite <- Hl; now left).
  apply filter_In in Htask. destruct Htask as [Hin Hid].
  apply opt_eqb_eq in Hid. injection Hid as Hid. subst u.
  (* the three rows *)
  change (subtask_payloads (Some held) taskId task) with
    [ [("title", CText ("Research: " ++ t_title task));
       ("description", CText ("Research and gather requirements for " ++ t_title task));
       ("priority", CText (t_priority task)); ("project_id", CText held);
       ("status", CText "pending"); ("dependencies", CArray [taskId])];
      [("title", CText ("Implement: " ++ t_title task));
       ("description", CText ("Core implementation of " ++ t_title task));
       ("priority", CText (t_priority task)); ("project_id", CText held);
       ("status", CText "pending"); ("dependencies", CArray [taskId])];
      [("title", CText ("Test: " ++ t_title task));
       ("description", CText ("Test and validate " ++ t_title task));
       ("priority", CText "medium"); ("project_id", CText held);
       ("status", CText "pending"); ("dependencies", CArray [taskId])] ] in *.
  apply task_rows_three in Hrows.
  destruct Hrows as (r1 & r2 & r3 & s1 & s2 & -> & Htasks & H1 & _ & H2 & _ & H3).
  apply subtask_row in H1, H2, H3.
  destruct H1 as (p1 & u1 & Hp1 & Hu1 & ->).
  destruct H2 as (p2 & u2 & Hp2 & Hu2 & ->).
  destruct H3 as (p3 & u3 & Hp3 & Hu3 & ->).
  assert (u1 = t_id task /\ u2 = t_id task /\ u3 = t_id task)
    as (-> & -> & ->) by (repeat split; congruence).
  exists held, task. do 3 eexists.
  split; [reflexivity|]. split; [exact Hin|]. split; [exact Hu|].
  split; [exact Htasks|].
  split; [repeat constructor; cbn; congruence|].
  repeat (split; [reflexivity|]).
  repeat constructor.
Qed.

End Facts.

End DirectFacts.

(** * Runs of the self-hosted server on the sample store *)

Module DirectRuns.
Import Direct DirectFacts Demo.SelfHosted.

#[local] Existing Instance platform.

(** A [TEXT] column sorts its values as text: [medium] after [low] after
    [high]. *)
Lemma text_order_of_priorities :
  String.compare "medium" "low" = Gt /\ String.compare "low" "high" = Gt
  /\ String.compare "medium" "high" = Gt.
Proof. repeat split. Qed.

(** C5, on the sample store. Both tasks are pending; [suggest_next_task]
    passes over the older task of priority [high] and suggests the one of
    priority [medium], which the descending text order of the [priority]
    column puts first. *)
Theorem suggest_next_task_prefers_medium :
  In urgent (tasks shop) /\ In routine (tasks shop)
  /\ t_status urgent = "pending" /\ t_priority urgent = "high"
  /\ t_status routine = "pending" /\ t_priority routine = "medium"
  /\ (t_created_at urgent < t_created_at routine)%Z
  /\ suggest_next_task None (machine (Some project_id) shop) =
     (Fulfilled (text_envelope "Suggested next task: Tidy docs (Priority: medium)"),
      machine (Some project_id) shop).
Proof.
  repeat split; try reflexivity; cbn; auto.
Qed.

(** The [tasks] table refuses an object that names a parent column. *)
Lemma parent_column_refused :
  task_row (uuid_of 0) shop
    [("title", CText "Research: Fix login"); ("parent_id", CText urgent_id)] =
  inl (unknown_column "tasks" "parent_id").
Proof. reflexivity. Qed.

(** C4 as stated fails: the call below succeeds, and the objects it
    inserts give no value to a parent column under either spelling. *)
Lemma break_down_task_writes_no_parent :
  fst (break_down_task urgent_id None (machine (Some project_id) shop)) =
  Fulfilled (text_envelope
    ("Task broken down into 3 subtasks:" ++ nl ++ "- Research: Fix login" ++ nl
     ++ "- Implement: Fix login" ++ nl ++ "- Test: Fix login"))
  /\ ~ Forall (fun p => cell "parent_id" p = Some (CText urgent_id)
                        \/ cell "parentId" p = Some (CText urgent_id))
         (subtask_payloads (Some project_id) urgent_id urgent).
Proof.
  split; [vm_compute; reflexivity|].
  intros H. inversion H as [|p rest [Hp|Hp] _]; vm_compute in Hp; discriminate.
Qed.

Lemma break_down_task_creates_three_witness :
  let before := machine (Some project_id) shop in
  let after := snd (break_down_task shouted_id None before) in
  exists held task r1 r2 r3,
    currentProjectId before = Some held
    /\ In task (tasks (store before)) /\ uuid_in shouted_id = Some (t_id task)
    /\ tasks (store after) = (tasks (store before) ++ [r1; r2; r3])%list
    /\ Forall (fun r => t_dependencies r = Some [t_id task]
                        /\ t_status r = "pending"
                        /\ t_project_id r = uuid_in held) [r1; r2; r3]
    /\ t_title r1 = "Research: " ++ t_title task
    /\ t_title r2 = "Implement: " ++ t_title task
    /\ t_title r3 = "Test: " ++ t_title task
    /\ t_priority r1 = t_priority task
    /\ t_priority r2 = t_priority task
    /\ t_priority r3 = "medium"
    /\ Forall (fun p => List.map fst p =
                        ["title"; "description"; "priority"; "project_id";
                         "status"; "dependencies"])
         (subtask_payloads (Some held) shouted_id task).
Proof.
  cbn zeta.
  apply (break_down_task_creates_three shouted_id None
           (machine (Some project_id) shop)
           (text_envelope
              ("Task broken down into 3 subtasks:" ++ nl ++ "- Research: Fix login"
               ++ nl ++ "- Implement: Fix login" ++ nl ++ "- Test: Fix login"))).
  vm_compute. reflexivity.
Defined.

(** The self-hosted [create_project] makes the new project current, and
    [get_current_project] then answers with it. *)
Lemma self_hosted_create_project_then_current :
  let after := snd (create_project " Alpha " None None (machine None shop)) in
  currentProjectId after = Some (uuid_of 0)
  /\ fst (get_current_project after) =
     Fulfilled (text_envelope
       "{project:{id:00000000-0000-4000-8000-000000000000;name:Alpha;description:null;metadata:{};created_at:100;};stats:{memories:0;tasks:0;};}").
Proof. split; vm_compute; reflexivity. Qed.

End DirectRuns.

(** * The limit of [search_memory] on both servers *)

Module SchemaFacts.

Lemma number_min_max_iff lo hi x :
  Zod.number_min_max lo hi x = true <-> (lo <= x <= hi)%Z.
Proof.
  unfold Zod.number_min_max. rewrite andb_true_iff, !Z.leb_le. tauto.
Qed.

Section Limits.
Context `{B : Remote.Backend}.

(** C6, as the code has it. The self-hosted schema accepts a supplied
    limit exactly when it lies in 1-100 and turns an absent limit into
    10; the hosted-API schema accepts a supplied limit exactly when it
    lies in 1-50 and leaves an absent limit absent, for which the handler
    takes 10. A refused call does not reach the handler: the machine is
    left as it was, no request issued. *)
Theorem search_memory_limit_bounds (query : string) (limit : Z)
    (m : Remote.Machine) :
  query <> "" ->
  (Direct.search_memory_schema query (Some limit) = Zod.Valid (query, limit)
   <-> (1 <= limit <= 100)%Z)
  /\ (~ (1 <= limit <= 100)%Z ->
      forall R (handler : string * Z -> R),
        Zod.dispatch (Direct.search_memory_schema query (Some limit)) handler =
        Zod.Refused)
  /\ Direct.search_memory_schema query None = Zod.Valid (query, 10%Z)
  /\ (Remote.search_memory_schema query (Some limit) = Zod.Valid (query, Some limit)
      <-> (1 <= limit <= 50)%Z)
  /\ (~ (1 <= limit <= 50)%Z ->
      Remote.call_search_memory query (Some limit) m =
      (Fulfilled Remote.InvalidParams, m))
  /\ Remote.search_memory_schema query None = Zod.Valid (query, None)
  /\ Remote.search_memory query None m = Remote.search_memory query (Some 10%Z) m.
Proof.
  intros Hq. apply truthy_true_iff in Hq.
  unfold Direct.search_memory_schema, Remote.call_search_memory, Remote.tool,
    Remote.search_memory_schema, Zod.string_min1, Zod.with_default, Zod.optional.
  rewrite Hq.
  pose proof (number_min_max_iff 1 100 limit) as H100.
  pose proof (number_min_max_iff 1 50 limit) as H50.
  destruct (Zod.number_min_max 1 100 limit), (Zod.number_min_max 1 50 limit);
    repeat split; intros; try reflexivity; try discriminate;
    try (now apply H100); try (now apply H50);
    try (exfalso; intuition congruence).
Qed.

End Limits.

Lemma search_memory_limit_bounds_witness :
  let m := Demo.Hosted.machine (Some "p-alpha")
             (Demo.Hosted.service (Some Demo.Hosted.alpha) [Demo.Hosted.alpha] false) in
  Direct.search_memory_schema "notes" (Some 75%Z) = Zod.Valid ("notes", 75%Z)
  /\ Remote.call_search_memory "notes" (Some 75%Z) m =
     (Fulfilled Remote.InvalidParams, m)
  /\ Direct.search_memory_schema "notes" None = Zod.Valid ("notes", 10%Z).
Proof.
  cbn zeta.
  pose proof (@search_memory_limit_bounds Demo.Hosted.backend "notes" 75%Z
                (Demo.Hosted.machine (Some "p-alpha")
                   (Demo.Hosted.service (Some Demo.Hosted.alpha)
                      [Demo.Hosted.alpha] false))) as H.
  destruct H as (H1 & _ & H3 & _ & H5 & _); [discriminate|].
  split; [apply H1; lia|]. split; [apply H5; lia|exact H3].
Defined.

End SchemaFacts.

(** * Further properties of the hosted-API server *)

Module RemoteToolsFacts.
Import Remote RemoteFacts RemoteTools.

Section Facts.
Context `{B : Backend}.

(** Every request that [request] issues, its own and the tracking one,
    goes to the configured service and carries the bearer credential. *)
Theorem request_forwards_credential method endpoint body m :
  exists extra,
    sent (snd (request method endpoint body m)) = (sent m ++ extra)%list
    /\ Forall (fun r => headers r = [ ("Authorization", "Bearer " ++ apiKey);
                                      ("Content-Type", "application/json") ]
                        /\ exists path, url r = apiUrl ++ path) extra.
Proof.
  destruct (request_run method endpoint body m) as (_ & _ & Hsent & _).
  eexists. split; [exact Hsent|].
  unfold traffic_of. constructor.
  - split; [reflexivity|]. exists endpoint. reflexivity.
  - destruct (fst (net _ (world m))) as [response|t]; [|constructor].
    destruct (ok response); constructor; [|constructor].
    split; [reflexivity|]. exists "/usage/track". reflexivity.
Qed.

(** Usage is tracked exactly for the responses with a success status:
    a transport failure or another status sends no tracking request,
    and a success status sends one even when the body then fails to
    parse. *)
Theorem tracking_follows_success_only method endpoint body m :
  let answer := fst (net (api_request method endpoint body) (world m)) in
  let m' := snd (request method endpoint body m) in
  (forall response,
      answer = Fulfilled response -> ok response = true ->
      sent m' = (sent m ++ [api_request method endpoint body;
                            usage_request endpoint method])%list
      /\ List.length (detached m') = S (List.length (detached m)))
  /\ ((forall response, answer = Fulfilled response -> ok response = false) ->
      sent m' = (sent m ++ [api_request method endpoint body])%list
      /\ detached m' = detached m).
Proof.
  cbn zeta.
  unfold request, bind, try_catch, fetch, trackUsage, fetch_detached,
    throw, ret, settle.
  cbn.
  destruct (net (api_request method endpoint body) (world m)) as [[response|t] w1]
    eqn:Hnet; cbn.
  - split.
    + intros r [= <-] Hok. rewrite Hok. cbn.
      destruct (net (usage_request endpoint method) w1) as [tracked w2]. cbn.
      split; [now rewrite <- app_assoc|].
      rewrite length_app. cbn. lia.
    + intros Hno. rewrite (Hno response eq_refl). cbn. split; reflexivity.
  - split.
    + intros r H. discriminate.
    + intros _. destruct (instanceof_Error t); cbn; split; reflexivity.
Qed.


Lemma validateKey_run m :
  validateKey m =
  (match fst (request "GET" "/projects" None m) with
   | Fulfilled data =>
       Fulfilled {| valid := true; subscription := "free"; key_projects := data |}
   | Rejected error =>
       Rejected (JsError ("API validation failed: " ++ message_of error))
   end, snd (request "GET" "/projects" None m)).
Proof.
  unfold validateKey, try_catch, bind, ret, throw.
  destruct (request "GET" "/projects" None m) as [[data|t] m']; reflexivity.
Qed.

(** [main] gets past its start exactly when the key of the environment
    is non-empty and [GET /projects] is answered with a success status
    and a readable body; in every other case the process exits with
    code 1, and without a key it exits before any request. *)
Theorem startup_ready_iff key m :
  ((exists log, fst (main_startup key m) = Ready log)
   <-> truthy_opt key = true
       /\ fulfilled (settlement_of
                       (fst (net (api_request "GET" "/projects" None) (world m)))))
  /\ (fst (main_startup key m) = Ready ["Connected to TaskMem (free plan)"]
      \/ exists log, fst (main_startup key m) = Exit 1 log)
  /\ (truthy_opt key = true \/ snd (main_startup key m) = m).
Proof.
  unfold main_startup.
  destruct (truthy_opt key) eqn:Hkey; cbn.
  - rewrite validateKey_run.
    destruct (request_run "GET" "/projects" None m) as (Hres & _).
    rewrite Hres.
    destruct (settlement_of _) as [data|t]; cbn.
    + split; [|split]; [|now left|now left].
      split; [intros _; split; [reflexivity|eexists; reflexivity]|].
      intros _. eexists; reflexivity.
    + split; [|split]; [|right; eexists; reflexivity|now left].
      split; [intros [log H]; discriminate|].
      intros [_ [v Hv]]. discriminate.
  - split; [|split]; [|right; eexists; reflexivity|now right].
    split; [intros [log H]; discriminate|intros [H _]; discriminate].
Qed.

Lemma request_ignores_current method endpoint body v m :
  request method endpoint body (with_current v m) =
  (fst (request method endpoint body m),
   with_current v (snd (request method endpoint body m))).
Proof.
  unfold request, bind, try_catch, fetch, trackUsage, fetch_detached,
    throw, ret, settle, with_current, set_currentProjectId.
  cbn.
  destruct (net (api_request method endpoint body) (world m)) as [[response|t] w1];
    cbn.
  - destruct (ok response); cbn; [|reflexivity].
    destruct (net (usage_request endpoint method) w1) as [tracked w2]. reflexivity.
  - destruct (instanceof_Error t); reflexivity.
Qed.

(** The hosted-API [get_current_project] never consults the reference
    the session holds: its answer is the service's, whatever
    [currentProjectId] is. *)
Theorem get_current_project_ignores_reference v m :
  fst (get_current_project (with_current v m)) = fst (get_current_project m).
Proof.
  unfold get_current_project, guarded, try_catch, bind, getCurrentProject,
    settle, ret.
  rewrite request_ignores_current.
  destruct (request "GET" "/projects/current" None m) as [[response|t] m1]; cbn;
    [|reflexivity].
  destruct (prop_project response) as [[p|]|t]; reflexivity.
Qed.

Lemma set_current_project_overwrites projectId m :
  currentProjectId (snd (set_current_project projectId m)) = Some projectId.
Proof.
  unfold set_current_project, guarded, try_catch, bind, setCurrentProject, ret.
  pose proof (request_keeps_current "PUT" "/projects/current"
                (Some (JObj [("projectId", JStr projectId)]))
                (snd (set_currentProjectId (Some projectId) m))) as Hkeep.
  cbn in *.
  destruct (request "PUT" "/projects/current" _ _) as [[v|t] m']; cbn in *;
    exact Hkeep.
Qed.

(** After [set_current_project p], accepted by the service or not, the
    next [store_memory] addresses project [p]: its first request is the
    [POST] to [/projects/p/memories], with the importance defaulted to
    5. *)
Theorem store_memory_targets_set_project p content memoryType importance m :
  truthy p = true ->
  let m1 := snd (set_current_project p m) in
  exists extra,
    sent (snd (store_memory content memoryType importance m1)) =
    (sent m1
     ++ api_request "POST" ("/projects/" ++ p ++ "/memories")
          (Some (JObj [("content", JStr content);
                       ("memoryType", of_opt_str memoryType);
                       ("importance", JNum (or_num importance 5))]))
     :: extra)%list.
Proof.
  intros Hp m1.
  pose proof (ensure_held m1 p (set_current_project_overwrites p m) Hp) as Hheld.
  pose proof (request_run "POST" ("/projects/" ++ p ++ "/memories")
                (Some (JObj [("content", JStr content);
                             ("memoryType", of_opt_str memoryType);
                             ("importance", JNum (or_num importance 5))])) m1)
    as (_ & _ & Hsent & _).
  unfold store_memory, guarded, try_catch, bind. rewrite Hheld.
  unfold storeMemory. rewrite Hp. cbn [of_opt_num].
  destruct (request "POST" _ _ m1) as [[memory|t] m2]; cbn in Hsent |- *.
  - unfold settle, ret. destruct (prop_id memory); cbn;
      eexists; exact Hsent.
  - eexists; exact Hsent.
Qed.

(** When resolution ends on a project whose [id] is empty, the memory
    tools answer 'Project ID is required for memory operations' and send
    nothing more. *)
Theorem empty_project_id_blocks_memory_tools m m1 :
  ensureCurrentProject m = (Fulfilled "", m1) ->
  (forall content memoryType importance,
      store_memory content memoryType importance m =
      (Fulfilled (text_envelope
                    "Error: Project ID is required for memory operations"), m1))
  /\ (forall query limit,
         search_memory query limit m =
         (Fulfilled (text_envelope
                       "Error: Project ID is required for memory operations"), m1))
  /\ (forall memoryType timeRange,
         get_memories memoryType timeRange m =
         (Fulfilled (text_envelope
                       "Error: Project ID is required for memory operations"), m1)).
Proof.
  intros H. repeat split; intros;
    unfold store_memory, search_memory, get_memories, guarded, try_catch, bind;
    rewrite H; reflexivity.
Qed.

(** When the first listed project is adopted and the request that marks
    it fails, the call fails with the no-project message although the
    reference is already set: the next call returns that project and
    issues no request. *)
Theorem failed_marking_leaves_adoption m first t :
  truthy_opt (currentProjectId m) = false ->
  marked_id (fst (getCurrentProject m)) = None ->
  first_listed (fst (listProjects (snd (getCurrentProject m)))) = Some first ->
  truthy (id first) = true ->
  fst (setCurrentProject (id first)
         (with_current (Some (id first))
            (snd (listProjects (snd (getCurrentProject m)))))) = Rejected t ->
  fst (ensureCurrentProject m) = Rejected (JsError no_project_message)
  /\ ensureCurrentProject (snd (ensureCurrentProject m)) =
     (Fulfilled (id first), snd (ensureCurrentProject m)).
Proof.
  intros Hheld Hmarked Hfirst Hid Hput.
  rewrite (ensure_resolving m Hheld), adopt_marked_run, Hmarked.
  rewrite adopt_first_run, Hfirst. cbn zeta. rewrite Hput. cbn.
  split; [reflexivity|].
  apply ensure_held; [|exact Hid].
  unfold setCurrentProject. rewrite request_keeps_current. reflexivity.
Qed.

Ltac after_one_request :=
  repeat match goal with x := _ |- _ => subst x end;
  unfold update_memory_importance, updateMemoryImportance, update_task_status,
    updateTaskStatus, break_down_task, breakDownTask;
  unfold guarded, try_catch, bind, settle, ret; cbv beta;
  match goal with
  | |- context [request ?a ?b ?c ?m] =>
      let Hcur := fresh "Hcur" in
      let Hsent := fresh "Hsent" in
      destruct (request_run a b c m) as (_ & Hcur & Hsent & _);
      destruct (request a b c m) as [[? | ?] ?];
      cbn in Hcur, Hsent |- *;
      repeat match goal with
             | |- context [match ?x with Fulfilled _ => _ | Rejected _ => _ end] =>
                 destruct x; cbn
             end;
      split; assumption
  end.

(** The hosted-API tools that name their target by id --
    [update_memory_importance], [update_task_status], [break_down_task]
    -- never resolve a project: they leave [currentProjectId] as it is
    and issue one call to a path built from the id alone. The body of
    [update_task_status] is [{ status }], whatever the notes. *)
Theorem id_addressed_tools_skip_resolution m :
  (forall memoryId importance,
      let m' := snd (update_memory_importance memoryId importance m) in
      currentProjectId m' = currentProjectId m
      /\ sent m' =
         (sent m ++ traffic_of "PUT" ("/memories/" ++ memoryId)
                      (Some (JObj [("importance", JNum importance)]))
                      (fst (net (api_request "PUT" ("/memories/" ++ memoryId)
                                   (Some (JObj [("importance", JNum importance)])))
                                (world m))))%list)
  /\ (forall taskId status notes,
         let m' := snd (update_task_status taskId status notes m) in
         currentProjectId m' = currentProjectId m
         /\ sent m' =
            (sent m ++ traffic_of "PUT" ("/tasks/" ++ taskId)
                         (Some (JObj [("status", JStr status)]))
                         (fst (net (api_request "PUT" ("/tasks/" ++ taskId)
                                      (Some (JObj [("status", JStr status)])))
                                   (world m))))%list)
  /\ (forall taskId targetComplexity,
         let m' := snd (break_down_task taskId targetComplexity m) in
         currentProjectId m' = currentProjectId m
         /\ sent m' =
            (sent m ++ traffic_of "POST" ("/tasks/" ++ taskId ++ "/breakdown") None
                         (fst (net (api_request "POST"
                                      ("/tasks/" ++ taskId ++ "/breakdown") None)
                                   (world m))))%list).
Proof.
  split; [|split]; intros; cbn zeta.
  - after_one_request.
  - after_one_request.
  - after_one_request.
Qed.

(** The client methods that take a project id refuse a null or empty
    one before any request; [suggestNextTask] has no such guard and
    sends the null id to the service. *)
Theorem client_requires_project_id projectId m :
  truthy_opt projectId = false ->
  (forall content memoryType importance,
      storeMemory projectId content memoryType importance m =
      (Rejected (JsError "Project ID is required for memory operations"), m))
  /\ (forall query limit,
         searchMemory projectId query limit m =
         (Rejected (JsError "Project ID is required for memory operations"), m))
  /\ (forall limit,
         getMemories projectId limit m =
         (Rejected (JsError "Project ID is required for memory operations"), m))
  /\ (forall title description priority dependencies,
         createTask projectId title description priority dependencies m =
         (Rejected (JsError "Project ID is required for task operations"), m))
  /\ (forall status,
         listTasks projectId status m =
         (Rejected (JsError "Project ID is required for task operations"), m))
  /\ exists extra,
       sent (snd (suggestNextTask projectId m)) =
       (sent m ++ api_request "POST" "/tasks/suggest"
                    (Some (JObj [("projectId", null_or_str projectId)]))
               :: extra)%list.
Proof.
  intros Hno.
  assert (Hsuggest : exists extra,
             sent (snd (suggestNextTask projectId m)) =
             (sent m ++ api_request "POST" "/tasks/suggest"
                          (Some (JObj [("projectId", null_or_str projectId)]))
                     :: extra)%list).
  { destruct (request_run "POST" "/tasks/suggest"
                (Some (JObj [("projectId", null_or_str projectId)])) m)
      as (_ & _ & Hsent & _).
    eexists; exact Hsent. }
  unfold storeMemory, searchMemory, getMemories, createTask, listTasks.
  destruct projectId as [pid|]; cbn in Hno; [rewrite Hno|];
    do 5 (split; [intros; reflexivity|]); exact Hsuggest.
Qed.

(** On the hosted-API server an importance outside 1-10 is refused
    before the handler runs, for [store_memory] and for
    [update_memory_importance]; an importance inside the range reaches
    the service unchanged. *)
Theorem hosted_importance_bounds content memoryType memoryId importance p m :
  content <> "" ->
  currentProjectId m = Some p -> truthy p = true ->
  (~ (1 <= importance <= 10)%Z ->
   call_store_memory content memoryType (Some importance) m =
   (Fulfilled InvalidParams, m)
   /\ call_update_memory_importance memoryId importance m =
      (Fulfilled InvalidParams, m))
  /\ ((1 <= importance <= 10)%Z ->
      exists extra,
        sent (snd (call_store_memory content memoryType (Some importance) m)) =
        (sent m
         ++ api_request "POST" ("/projects/" ++ p ++ "/memories")
              (Some (JObj [("content", JStr content);
                           ("memoryType", of_opt_str memoryType);
                           ("importance", JNum importance)]))
         :: extra)%list).
Proof.
  intros Hc Hcur Hp. apply truthy_true_iff in Hc.
  unfold call_store_memory, call_update_memory_importance, tool,
    store_memory_schema, update_memory_importance_schema, Zod.optional,
    Zod.string_min1, Zod.number_min_max.
  rewrite Hc.
  split.
  - intros Hout.
    assert (((1 <=? importance)%Z && (importance <=? 10)%Z)%bool = false) as ->
      by (apply andb_false_iff; rewrite !Z.leb_gt; lia).
    split; reflexivity.
  - intros Hin.
    assert (((1 <=? importance)%Z && (importance <=? 10)%Z)%bool = true) as ->
      by (apply andb_true_iff; rewrite !Z.leb_le; lia).
    assert (Hnz : or_num (Some importance) 5 = importance).
    { unfold or_num. destruct (importance =? 0)%Z eqn:Hz; [|reflexivity].
      apply Z.eqb_eq in Hz. lia. }
    pose proof (ensure_held m p Hcur Hp) as Hheld.
    pose proof (request_run "POST" ("/projects/" ++ p ++ "/memories")
                  (Some (JObj [("content", JStr content);
                               ("memoryType", of_opt_str memoryType);
                               ("importance", JNum importance)])) m)
      as (_ & _ & Hsent & _).
    cbn [fst snd].
    unfold store_memory, guarded, try_catch, bind. rewrite Hheld.
    unfold storeMemory. rewrite Hp, Hnz. cbn [of_opt_num].
    destruct (request "POST" _ _ m) as [[memory|t] m2]; cbn in Hsent |- *.
    + unfold settle, ret. destruct (prop_id memory); cbn; eexists; exact Hsent.
    + eexists; exact Hsent.
Qed.

End Facts.

End RemoteToolsFacts.

(** * Further runs of the hosted-API server on the sample service *)

Module RemoteToolsRuns.
Import Remote RemoteFacts RemoteTools RemoteToolsFacts Demo.Hosted Samples.

#[local] Existing Instance backend.

Lemma tracking_follows_success_only_witness :
  let accepted := machine None (service None [beta] false) in
  let refused := machine None (service None [beta] true) in
  List.map url (sent (snd (request "GET" "/projects" None accepted))) =
  [ "https://api.example.test/projects"; "https://api.example.test/usage/track" ]
  /\ List.map url
       (sent (snd (request "PUT" "/projects/current" None refused))) =
     [ "https://api.example.test/projects/current" ].
Proof.
  cbn zeta. split.
  - pose proof (tracking_follows_success_only "GET" "/projects" None
                  (machine None (service None [beta] false))) as H.
    cbn zeta in H. destruct H as (H & _).
    destruct (H _ eq_refl eq_refl) as (Hsent & _).
    rewrite Hsent. reflexivity.
  - pose proof (tracking_follows_success_only "PUT" "/projects/current" None
                  (machine None (service None [beta] true))) as H.
    cbn zeta in H. destruct H as (_ & H).
    destruct H as (Hsent & _).
    + intros response [= <-]. reflexivity.
    + rewrite Hsent. reflexivity.
Defined.


Lemma startup_ready_iff_witness :
  (exists log, fst (main_startup (Some "key")
                      (machine None (service None [beta] false))) = Ready log)
  /\ snd (main_startup None (machine None (service None [beta] false))) =
     machine None (service None [beta] false).
Proof.
  split.
  - apply (proj1 (startup_ready_iff (Some "key")
                    (machine None (service None [beta] false)))).
    split; [reflexivity|]. vm_compute. eexists; reflexivity.
  - destruct (proj2 (proj2 (startup_ready_iff None
                              (machine None (service None [beta] false)))))
      as [H|H]; [discriminate|exact H].
Defined.

Lemma store_memory_targets_set_project_witness :
  let m1 := snd (set_current_project "p-beta"
                   (machine (Some "p-alpha") (service (Some alpha) [alpha; beta] true))) in
  exists extra,
    sent (snd (store_memory "hello" None None m1)) =
    (sent m1
     ++ api_request "POST" "/projects/p-beta/memories"
          (Some (JObj [("content", JStr "hello");
                       ("memoryType", JUndefined);
                       ("importance", JNum 5)]))
     :: extra)%list.
Proof.
  apply (store_memory_targets_set_project "p-beta" "hello" None None
           (machine (Some "p-alpha") (service (Some alpha) [alpha; beta] true))).
  reflexivity.
Defined.

Lemma empty_project_id_blocks_memory_tools_witness :
  fst (store_memory "hello" None None
         (machine None (service None [nameless] false))) =
  Fulfilled (text_envelope "Error: Project ID is required for memory operations").
Proof.
  pose proof (empty_project_id_blocks_memory_tools
                (machine None (service None [nameless] false))
                (snd (ensureCurrentProject
                        (machine None (service None [nameless] false))))) as H.
  destruct H as (H & _); [vm_compute; reflexivity|].
  rewrite H. reflexivity.
Defined.

Lemma failed_marking_leaves_adoption_witness :
  let m := machine None (service None [beta] true) in
  fst (ensureCurrentProject m) = Rejected (JsError no_project_message)
  /\ ensureCurrentProject (snd (ensureCurrentProject m)) =
     (Fulfilled "p-beta", snd (ensureCurrentProject m)).
Proof.
  cbn zeta.
  apply (failed_marking_leaves_adoption
           (machine None (service None [beta] true)) beta
           (JsError "cannot mark project"));
    try reflexivity; vm_compute; reflexivity.
Defined.

Lemma client_requires_project_id_witness :
  storeMemory None "hello" None None (machine None (service None [beta] false)) =
  (Rejected (JsError "Project ID is required for memory operations"),
   machine None (service None [beta] false))
  /\ listTasks (Some "") None (machine None (service None [beta] false)) =
     (Rejected (JsError "Project ID is required for task operations"),
      machine None (service None [beta] false)).
Proof.
  split.
  - destruct (client_requires_project_id None
                (machine None (service None [beta] false)) eq_refl) as (H & _).
    apply H.
  - destruct (client_requires_project_id (Some "")
                (machine None (service None [beta] false)) eq_refl)
      as (_ & _ & _ & _ & H & _).
    apply H.
Defined.

Lemma hosted_importance_bounds_witness :
  let m := machine (Some "p-alpha") (service (Some alpha) [alpha] false) in
  call_store_memory "hello" None (Some 11%Z) m = (Fulfilled InvalidParams, m)
  /\ call_update_memory_importance "m-1" 0%Z m = (Fulfilled InvalidParams, m)
  /\ exists extra,
       sent (snd (call_store_memory "hello" None (Some 10%Z) m)) =
       (sent m
        ++ api_request "POST" "/projects/p-alpha/memories"
             (Some (JObj [("content", JStr "hello");
                          ("memoryType", JUndefined);
                          ("importance", JNum 10)]))
        :: extra)%list.
Proof.
  cbn zeta. split; [|split].
  - destruct (hosted_importance_bounds "hello" None "m-1" 11%Z "p-alpha"
                (machine (Some "p-alpha") (service (Some alpha) [alpha] false))
                ltac:(discriminate) eq_refl eq_refl)
      as (H & _).
    apply H. lia.
  - destruct (hosted_importance_bounds "hello" None "m-1" 0%Z "p-alpha"
                (machine (Some "p-alpha") (service (Some alpha) [alpha] false))
                ltac:(discriminate) eq_refl eq_refl)
      as (H & _).
    apply H. lia.
  - destruct (hosted_importance_bounds "hello" None "m-1" 10%Z "p-alpha"
                (machine (Some "p-alpha") (service (Some alpha) [alpha] false))
                ltac:(discriminate) eq_refl eq_refl)
      as (_ & H).
    apply H. lia.
Defined.

End RemoteToolsRuns.

(** * Further properties of the self-hosted server *)

Module DirectToolsFacts.
Import Direct DirectFacts DirectTools.

Lemma sorted_descending {A} (col : A -> Z) (rows : list A) :
  StronglySorted (fun a b => le_of (descending (by_time col)) a b = true) rows ->
  StronglySorted (fun a b => (col b <= col a)%Z) rows.
Proof.
  induction 1 as [|x l Hs IH Hall]; constructor; [exact IH|].
  eapply Forall_impl; [|exact Hall].
  intros y Hy. now apply by_time_newer in Hy.
Qed.

Lemma sort_by_time_sorted {A} (col : A -> Z) (l : list A) :
  StronglySorted (fun a b => (col b <= col a)%Z)
    (sort_rows (le_of (descending (by_time col))) l).
Proof.
  apply sorted_descending, sort_rows_sorted.
  - apply by_time_total.
  - apply by_time_trans.
Qed.

Lemma project_row_fields fresh s name description metadata row :
  project_row fresh s
    [("name", CText name); ("description", description); ("metadata", CJson metadata)]
  = inr row ->
  (description = CNull \/ exists d, description = CText d) ->
  p_id row = fresh /\ p_name row = name /\ p_metadata row = metadata
  /\ p_created_at row = now s
  /\ p_description row = match description with CText d => Some d | _ => None end
  /\ mem fresh (List.map p_id (projects s)) = false.
Proof.
  intros H [->|[d ->]]; revert H; unfold project_row; cbn;
    destruct (mem fresh (List.map p_id (projects s))); try discriminate;
    intros [= <-]; repeat split.
Qed.

Section Facts.
Context `{P : Platform} `{E : Embedder}.

(** [create_project] is all or nothing: either the machine is left as it
    was (blank name, store failure), or exactly one project, named by
    the trimmed name and with an id no other project has, is appended
    and becomes the current project. *)
Theorem create_project_all_or_nothing name description metadata m :
  let m' := snd (create_project name description metadata m) in
  m' = m
  \/ (truthy (trim name) = true
      /\ exists row,
          projects (store m') = (projects (store m) ++ [row])%list
          /\ memories (store m') = memories (store m)
          /\ tasks (store m') = tasks (store m)
          /\ p_name row = trim name
          /\ ~ In (p_id row) (List.map p_id (projects (store m)))
          /\ currentProjectId m' = Some (p_id row)).
Proof.
  cbn zeta.
  unfold create_project, guarded, try_catch, bind, inserting, insert_project.
  destruct (truthy (trim name)) eqn:Hname; cbn; [|now left].
  destruct m as [held s]. cbn.
  destruct (outage s) as [e|] eqn:Hout; cbn.
  - left. destruct (code e =? "23505"); reflexivity.
  - match goal with
    | |- context [project_row ?f s ?p] =>
        destruct (project_row f s p) as [e|row] eqn:Hrow
    end; cbn.
    + left. destruct (code e =? "23505"); reflexivity.
    + right. split; [reflexivity|]. exists row.
      apply project_row_fields in Hrow.
      * destruct Hrow as (Hid & Hn & _ & _ & _ & Hfresh).
        repeat split; try assumption.
        intros Hin. rewrite <- Hid in Hfresh.
        unfold mem in Hfresh.
        assert (existsb (String.eqb (p_id row)) (List.map p_id (projects s)) = true)
          by (apply existsb_exists; eexists; split;
              [exact Hin|apply String.eqb_refl]).
        congruence.
      * destruct description as [d|]; [|now left].
        destruct (truthy (trim d)); [right; eauto|now left].
Qed.


Lemma insert_one_task p s :
  insert_tasks [p] s =
  match outage s with
  | Some e => (fail e, s)
  | None =>
      match task_row (gen_random_uuid (serial s)) s p with
      | inl e => (fail e, s)
      | inr row =>
          (succeed [row],
           {| projects := projects s; memories := memories s;
              tasks := (tasks s ++ [row])%list; now := now s;
              serial := S (serial s); outage := outage s |})
      end
  end.
Proof.
  unfold insert_tasks, task_rows, need.
  destruct (outage s); [reflexivity|].
  destruct (task_row (gen_random_uuid (serial s)) s p); reflexivity.
Qed.

Lemma uuid_array_denotes l us :
  uuid_array l = inr us ->
  Forall2 (fun text id => uuid_in text = Some id) l us.
Proof.
  revert us. induction l as [|v l IH]; cbn; intros us H.
  - injection H as <-. constructor.
  - destruct (uuid_in v) as [u|] eqn:Hu; [|discriminate].
    destruct (uuid_array l) as [e|rest]; cbn in H; [discriminate|].
    injection H as <-. constructor; [exact Hu|now apply IH].
Qed.

Lemma create_task_row fresh s cur title description priority dependencies row :
  task_row fresh s
    [("project_id", CText cur); ("title", CText title);
     ("description", opt_text description); ("priority", CText priority);
     ("dependencies", CArray dependencies); ("status", CText "pending")] = inr row ->
  exists project deps,
    uuid_in cur = Some project
    /\ Forall2 (fun text id => uuid_in text = Some id) dependencies deps
    /\ row = {| t_id := fresh; t_project_id := Some project; t_title := title;
                t_description := description; t_status := "pending";
                t_priority := priority; t_dependencies := Some deps;
                t_metadata := []; t_created_at := now s |}.
Proof.
  unfold task_row.
  destruct description as [d|]; cbn;
    unfold col_project_ref, col_enum, col_dependencies; cbn;
    (destruct (uuid_in cur) as [project|]; cbn; [|discriminate]);
    (destruct (uuid_array dependencies) as [e|deps] eqn:Hdeps;
     [repeat (match goal with
              | |- context [if ?b then _ else _] => destruct b
              end; cbn; try discriminate)|]);
    apply uuid_array_denotes in Hdeps;
    repeat (match goal with
            | |- context [if ?b then _ else _] => destruct b
            end; cbn; try discriminate);
    intros H; injection H as <-; eauto.
Qed.

(** [create_task] either throws and leaves the machine as it was, or
    appends exactly one task to the project the current reference
    denotes: pending, with the given priority or [medium], and
    depending on the tasks whose ids the given texts denote, in the
    order given, or on none. *)
Theorem create_task_all_or_nothing title description priority dependencies m :
  let r := create_task title description priority dependencies m in
  (exists t, fst r = Rejected t /\ snd r = m)
  \/ (exists cur row deps,
         currentProjectId m = Some cur
         /\ Forall2 (fun text id => uuid_in text = Some id)
              (match dependencies with Some l => l | None => [] end) deps
         /\ row = {| t_id := gen_random_uuid (serial (store m));
                     t_project_id := uuid_in cur; t_title := title;
                     t_description := description; t_status := "pending";
                     t_priority := or_str priority "medium";
                     t_dependencies := Some deps;
                     t_metadata := []; t_created_at := now (store m) |}
         /\ fst r = Fulfilled (text_envelope
                                 ("Task created: " ++ title ++ " (" ++ t_id row ++ ")"))
         /\ currentProjectId (snd r) = Some cur
         /\ tasks (store (snd r)) = (tasks (store m) ++ [row])%list
         /\ projects (store (snd r)) = projects (store m)
         /\ memories (store (snd r)) = memories (store m)).
Proof.
  cbn zeta. destruct m as [held s].
  unfold create_task, bind, get_currentProjectId, inserting. cbv beta iota zeta.
  cbn [currentProjectId store].
  destruct held as [cur|]; [|left; eexists; split; reflexivity].
  unfold truthy_opt. destruct (truthy cur) eqn:Hcur;
    [|left; eexists; split; reflexivity].
  cbv beta iota zeta delta [negb]. cbn [opt_text].
  rewrite insert_one_task. cbn [store currentProjectId].
  destruct (outage s) as [e|] eqn:Hout.
  - left. cbn. eexists; split; reflexivity.
  - match goal with
    | |- context [task_row ?f s ?p] =>
        destruct (task_row f s p) as [e|row] eqn:Hrow
    end.
    + left. cbn. eexists; split; reflexivity.
    + right. apply create_task_row in Hrow.
      destruct Hrow as (project & deps & Hproject & Hdeps & ->).
      exists cur. eexists. exists deps.
      split; [reflexivity|]. split; [exact Hdeps|].
      rewrite Hproject. split; [reflexivity|].
      cbn. repeat split.
Qed.

(** A [break_down_task] that throws has created nothing: the store and
    the reference are what they were. *)
Theorem break_down_task_failure_creates_nothing taskId targetComplexity m t :
  fst (break_down_task taskId targetComplexity m) = Rejected t ->
  snd (break_down_task taskId targetComplexity m) = m.
Proof.
  destruct m as [held s].
  unfold break_down_task, bind, get_currentProjectId, select, inserting.
  cbv beta iota zeta. cbn [currentProjectId store].
  destruct held as [cur|]; [|reflexivity].
  unfold truthy_opt. destruct (truthy cur); [|reflexivity].
  cbv beta iota zeta delta [negb]. cbn [currentProjectId store].
  destruct (run s (eq_uuid (fun t => Some (t_id t)) taskId (Rows (tasks s))))
    as [d er].
  unfold single, error, data, throw_pg, throw, non_null, ret, succeed, fail.
  destruct er as [er|]; [reflexivity|].
  destruct d as [[|task [|]]|]; try reflexivity.
  cbv beta iota zeta. cbn [currentProjectId store].
  unfold insert_tasks.
  destruct (outage s) as [o|]; [reflexivity|].
  destruct (task_rows (subtask_payloads (Some cur) taskId task) s)
    as [er|[rows s']]; [reflexivity|].
  cbn. discriminate.
Qed.

Lemma firstn_one_nil {A} (l : list A) : firstn 1 l = [] -> l = [].
Proof. destruct l; [reflexivity|discriminate]. Qed.

Lemma sort_rows_nil {A} (le : A -> A -> bool) (l : list A) :
  sort_rows le l = [] -> l = [].
Proof.
  intros H. apply Permutation_nil. rewrite <- H. apply sort_rows_perm.
Qed.

(** [suggest_next_task] reads and never writes. When it answers, it
    either reports that nothing is pending, and then the project the
    reference denotes has no task that is pending or in progress, or it
    names a task of that project that is pending or in progress. *)
Theorem suggest_next_task_names_open_task context m e p :
  fst (suggest_next_task context m) = Fulfilled e ->
  p = or_str (currentProjectId m) "default" ->
  snd (suggest_next_task context m) = m
  /\ ((e = text_envelope "No pending tasks found. Great job!"
       /\ forall t, In t (tasks (store m)) -> t_project_id t = uuid_in p ->
                    t_status t <> "pending" /\ t_status t <> "in_progress")
      \/ exists t,
           In t (tasks (store m)) /\ t_project_id t = uuid_in p
           /\ (t_status t = "pending" \/ t_status t = "in_progress")
           /\ e = text_envelope
                    ("Suggested next task: " ++ t_title t
                     ++ " (Priority: " ++ t_priority t ++ ")")).
Proof.
  intros Hrun ->. revert Hrun.
  unfold suggest_next_task, bind, get_currentProjectId, select.
  cbv beta iota zeta.
  unfold run.
  destruct (outage (store m)) as [o|]; [cbn; discriminate|].
  destruct (suggestion_query (currentProjectId m) (store m)) as [rows|er] eqn:Hq;
    [|cbn; discriminate].
  cbn [error data succeed].
  pose proof Hq as Hq'. unfold suggestion_query in Hq'.
  apply limit_rows in Hq'. destruct Hq' as (l1 & Hq' & Hrows).
  apply order_rows in Hq'. destruct Hq' as (l2 & Hq' & ->).
  apply where_rows in Hq'. destruct Hq' as (l3 & Hq' & ->).
  apply eq_uuid_rows in Hq'. destruct Hq' as (u & l4 & Hu & [= <-] & ->).
  rewrite Hu.
  destruct rows as [|t rest]; cbn; intros [= <-]; (split; [reflexivity|]).
  - left. split; [reflexivity|].
    intros t Hin Hproj.
    symmetry in Hrows. apply firstn_one_nil, sort_rows_nil in Hrows.
    assert (Hnot : ~ In t (filter
                     (fun r => existsb (String.eqb (t_status r))
                                 ["pending"; "in_progress"])
                     (filter (fun r => opt_eqb (t_project_id r) u)
                        (tasks (store m)))))
      by (rewrite Hrows; intros []).
    rewrite !filter_In in Hnot.
    split; intros Hst; apply Hnot; (split; [split; [exact Hin|]|]);
      try (now apply opt_eqb_eq); rewrite Hst; reflexivity.
  - right. exists t.
    assert (Hin : In t (firstn 1
               (sort_rows
                  (le_of (then_by (descending (by_text t_priority))
                            (by_time t_created_at)))
                  (filter (fun r => existsb (String.eqb (t_status r))
                                      ["pending"; "in_progress"])
                     (filter (fun r => opt_eqb (t_project_id r) u)
                        (tasks (store m)))))))
      by (rewrite <- Hrows; now left).
    apply firstn_incl, sort_rows_in in Hin.
    rewrite !filter_In in Hin. destruct Hin as ((Hin & Hproj) & Hst).
    apply opt_eqb_eq in Hproj.
    cbn in Hst. rewrite orb_false_r in Hst. apply orb_true_iff in Hst.
    repeat split; try assumption.
    destruct Hst as [H|H]; apply String.eqb_eq in H; auto.
Qed.

(** The statement of the self-hosted [get_memories] returns exactly the
    memories of the project the reference denotes whose type is the
    requested one
    (when a non-empty type is given) and whose creation time lies within
    the given bounds, newest first. *)
Theorem memories_query_exact cur memoryType timeRange s rows :
  memories_query cur memoryType timeRange s = Rows rows ->
  (forall r,
      In r rows <->
      In r (memories s)
      /\ m_project_id r = uuid_in cur
      /\ (forall ty, memoryType = Some ty -> truthy ty = true ->
                     m_memory_type r = Some ty)
      /\ (forall tr a, timeRange = Some tr -> range_start tr = Some a ->
                       (a <= m_created_at r)%Z)
      /\ (forall tr b, timeRange = Some tr -> range_end tr = Some b ->
                       (m_created_at r <= b)%Z))
  /\ StronglySorted (fun a b => (m_created_at b <= m_created_at a)%Z) rows.
Proof.
  intros Hq. pose proof (memories_query_spec _ _ _ _ _ Hq) as (Hsound & Hsorted).
  split; [|exact Hsorted].
  intros r. split.
  - intros Hin. rewrite Forall_forall in Hsound.
    destruct (Hsound r Hin) as (H1 & H2 & H3 & H4).
    repeat split; try assumption.
    unfold memories_query in Hq.
    apply order_rows in Hq. destruct Hq as (l1 & Hq & ->).
    apply sort_rows_in in Hin.
    revert Hin Hq.
    destruct (match timeRange with Some t => range_end t | None => None end);
      destruct (match timeRange with Some t => range_start t | None => None end);
      unfold when_truthy; destruct memoryType as [ty|];
      try destruct (truthy ty); cbn; unfold eq_text, where_;
      destruct (uuid_in cur) as [u|]; cbn; try discriminate;
      intros Hin [= <-]; repeat (apply filter_In in Hin; destruct Hin as [Hin _]);
      exact Hin.
  - intros (Hin & Hproj & Hty & Hstart & Hend).
    unfold memories_query in Hq.
    apply order_rows in Hq. destruct Hq as (l1 & Hq & ->).
    apply sort_rows_in.
    revert Hq.
    destruct timeRange as [[a b]|]; cbn [range_start range_end].
    + destruct b as [b|]; destruct a as [a|]; unfold when_truthy;
        destruct memoryType as [ty|]; try destruct (truthy ty) eqn:Htruthy;
        cbn; unfold eq_text, where_; destruct (uuid_in cur) as [u|]; cbn;
        try discriminate; intros [= <-];
        repeat (apply filter_In; split);
        try exact Hin; try (now apply opt_eqb_eq);
        try (apply Z.leb_le; eapply Hstart; reflexivity);
        try (apply Z.leb_le; eapply Hend; reflexivity);
        try (apply opt_eqb_eq; now apply Hty).
    + unfold when_truthy;
        destruct memoryType as [ty|]; try destruct (truthy ty) eqn:Htruthy;
        cbn; unfold eq_text, where_; destruct (uuid_in cur) as [u|]; cbn;
        try discriminate; intros [= <-];
        repeat (apply filter_In; split);
        try exact Hin; try (now apply opt_eqb_eq);
        try (apply opt_eqb_eq; now apply Hty).
Qed.

(** The self-hosted [set_current_project] checks before it switches: it
    never touches the store, and the reference either stays what it was
    or becomes the given text, which then denotes the id of a project
    that is in the store. *)
Theorem set_current_project_checks_first projectId m :
  let m' := snd (set_current_project projectId m) in
  store m' = store m
  /\ (currentProjectId m' = currentProjectId m
      \/ (currentProjectId m' = Some projectId
          /\ exists row, In row (projects (store m))
                         /\ uuid_in projectId = Some (p_id row))).
Proof.
  cbn zeta. destruct m as [held s].
  unfold set_current_project, guarded, try_catch, bind, select,
    set_currentProjectId.
  cbv beta iota zeta. cbn [currentProjectId store].
  destruct (run s (eq_uuid (fun p => Some (p_id p)) projectId (Rows (projects s))))
    as [d er] eqn:Hrun.
  unfold single, error, data, non_null, ret, succeed, fail.
  destruct er as [er|].
  - destruct (code er =? "PGRST116"); cbn; split; auto.
  - destruct d as [[|row [|]]|]; cbn; try (split; [reflexivity|now left]).
    split; [reflexivity|]. right. split; [reflexivity|].
    unfold run in Hrun. destruct (outage s); [discriminate|].
    destruct (eq_uuid _ projectId _) as [l|] eqn:Hq; [|discriminate].
    injection Hrun as ->.
    apply eq_uuid_rows in Hq. destruct Hq as (u & l0 & Hu & [= <-] & Hl).
    assert (Hin : In row (filter (fun r => opt_eqb (Some (p_id r)) u)
                            (projects s)))
      by (rewrite <- Hl; now left).
    apply filter_In in Hin. destruct Hin as [Hin Hid].
    apply opt_eqb_eq in Hid. injection Hid as Hid. subst u. eauto.
Qed.

Lemma update_task_run p taskId s :
  let r := update_task p taskId s in
  (snd r = s /\ data (fst r) = None)
  \/ (exists u row,
         uuid_in taskId = Some u
         /\ filter (fun t => String.eqb (t_id t) u) (tasks s) = [row]
         /\ mem (patch_status p) statuses = true
         /\ fst r = succeed (patched p row)
         /\ snd r = with_tasks s
                      (List.map (fun t => if String.eqb (t_id t) u
                                          then patched p t else t) (tasks s))).
Proof.
  cbn zeta. unfold update_task.
  destruct (outage s); [now left|].
  destruct (uuid_in taskId) as [u|]; [|now left].
  destruct (filter _ (tasks s)) as [|row [|]] eqn:Hf; try (now left).
  destruct (mem (patch_status p) statuses) eqn:Hst; [|now left].
  right. exists u, row. repeat split. exact Hf.
Qed.

(** [update_task_status] rewrites one task and nothing else: every task
    keeps its place, id, title, priority, project and dependencies; a
    task whose id is not the one [taskId] denotes is untouched; the task
    whose id it denotes gets the new status, and its metadata is
    replaced by the note when a non-empty note is given and kept
    otherwise. A call that throws changes nothing. *)
Theorem update_task_status_touches_one_task taskId status notes m :
  let r := update_task_status taskId status notes m in
  currentProjectId (snd r) = currentProjectId m
  /\ projects (store (snd r)) = projects (store m)
  /\ memories (store (snd r)) = memories (store m)
  /\ ((exists t, fst r = Rejected t) /\ snd r = m
      \/ ((exists e, fst r = Fulfilled e)
          /\ Forall2
               (fun old new =>
                  t_id new = t_id old /\ t_title new = t_title old
                  /\ t_priority new = t_priority old
                  /\ t_project_id new = t_project_id old
                  /\ t_dependencies new = t_dependencies old
                  /\ (Some (t_id old) <> uuid_in taskId -> new = old)
                  /\ (Some (t_id old) = uuid_in taskId ->
                      t_status new = status
                      /\ t_metadata new =
                         match notes with
                         | Some n =>
                             if truthy n then [("statusNote", JStr n)]
                             else t_metadata old
                         | None => t_metadata old
                         end))
               (tasks (store m)) (tasks (store (snd r))))).
Proof.
  cbn zeta. destruct m as [held s].
  unfold update_task_status, bind, inserting. cbv beta iota zeta.
  cbn [currentProjectId store].
  match goal with
  | |- context [update_task ?p taskId s] =>
      destruct (update_task_run p taskId s)
        as [[Hs Hd]|(u & row & Hu & Hf & Hst & Hr & Hs)];
      destruct (update_task p taskId s) as [res s'] eqn:Hup
  end; cbn [fst snd] in *.
  - subst s'. destruct res as [d er]. cbn in Hd. subst d.
    unfold error, data, throw_pg, throw, non_null, ret.
    destruct er as [er|]; cbn; repeat split; left; split; eauto.
  - subst res s'. cbn. repeat split. right. split; [eexists; reflexivity|].
    clear - Hu. induction (tasks s) as [|t l IH]; cbn [List.map]; [constructor|].
    constructor; [cbv beta|exact IH].
    rewrite Hu.
    destruct (String.eqb_spec (t_id t) u) as [Heq|Hne].
    + cbn. repeat split; try reflexivity; try (intros; congruence).
      destruct notes as [n|]; [destruct (truthy n)|]; reflexivity.
    + repeat split; try reflexivity; intros; congruence.
Qed.

(** Any status may follow any other: on a healthy store, a task that is
    the only one with the id [taskId] denotes takes whichever status of
    the enumeration is asked for, whatever status it had. *)
Theorem update_task_status_any_transition taskId status notes m id row :
  outage (store m) = None ->
  uuid_in taskId = Some id ->
  In status statuses ->
  filter (fun t => String.eqb (t_id t) id) (tasks (store m)) = [row] ->
  fst (update_task_status taskId status notes m) =
  Fulfilled (text_envelope
               ("Task status updated to " ++ status ++ ": " ++ t_title row)).
Proof.
  intros Hout Huuid Hst Hf. destruct m as [held s]. cbn in *.
  unfold update_task_status, bind, inserting, update_task.
  cbv beta iota zeta. cbn [currentProjectId store patch_status].
  rewrite Hout, Huuid, Hf.
  assert (mem status statuses = true) as ->.
  { unfold mem. apply existsb_exists. exists status.
    split; [exact Hst|apply String.eqb_refl]. }
  reflexivity.
Qed.

Lemma update_memory_run importance memoryId s :
  let r := update_memory importance memoryId s in
  snd r = s
  \/ ((1 <= importance <= 10)%Z
      /\ exists u,
           uuid_in memoryId = Some u
           /\ snd r = with_memories s
                        (List.map (fun t => if String.eqb (m_id t) u
                                            then reranked importance t else t)
                           (memories s))).
Proof.
  cbn zeta. unfold update_memory.
  destruct (outage s); [now left|].
  destruct (uuid_in memoryId) as [u|]; [|now left].
  destruct (filter _ (memories s)) as [|row [|]]; try (now left).
  destruct ((1 <=? importance)%Z && (importance <=? 10)%Z)%bool eqn:Hb; [|now left].
  right. apply andb_true_iff in Hb. rewrite !Z.leb_le in Hb.
  split; [lia|]. exists u. split; reflexivity.
Qed.

(** The self-hosted [update_memory_importance] changes at most the
    importance of the memory whose id [memoryId] denotes: every memory
    keeps its place, id, content, type, project and creation time; a
    memory with another id is untouched; and an importance that changes
    becomes the requested one, which then lies in 1-10. *)
Theorem update_memory_importance_touches_importance_only memoryId importance m :
  let m' := snd (update_memory_importance memoryId importance m) in
  currentProjectId m' = currentProjectId m
  /\ projects (store m') = projects (store m)
  /\ tasks (store m') = tasks (store m)
  /\ Forall2
       (fun old new =>
          m_id new = m_id old /\ m_content new = m_content old
          /\ m_memory_type new = m_memory_type old
          /\ m_project_id new = m_project_id old
          /\ m_created_at new = m_created_at old
          /\ (Some (m_id old) <> uuid_in memoryId -> new = old)
          /\ (new = old
              \/ (m_importance new = importance /\ (1 <= importance <= 10)%Z)))
       (memories (store m)) (memories (store m')).
Proof.
  cbn zeta. destruct m as [held s].
  unfold update_memory_importance, guarded, try_catch, bind, inserting.
  cbv beta iota zeta. cbn [currentProjectId store].
  assert (Hsame : Forall2
       (fun old new =>
          m_id new = m_id old /\ m_content new = m_content old
          /\ m_memory_type new = m_memory_type old
          /\ m_project_id new = m_project_id old
          /\ m_created_at new = m_created_at old
          /\ (Some (m_id old) <> uuid_in memoryId -> new = old)
          /\ (new = old
              \/ (m_importance new = importance /\ (1 <= importance <= 10)%Z)))
       (memories s) (memories s)).
  { induction (memories s); constructor; [|assumption]. repeat split; auto. }
  destruct (update_memory_run importance memoryId s) as [Hs|(Hin & u & Hu & Hs)];
    destruct (update_memory importance memoryId s) as [res s'];
    cbn [fst snd] in Hs; subst s'.
  - destruct res as [d [er|]]; unfold error, data, non_null, ret, throw.
    + destruct (code er =? "PGRST116"); cbn; repeat split; exact Hsame.
    + destruct d; cbn; repeat split; exact Hsame.
  - assert (Hnew : Forall2
       (fun old new =>
          m_id new = m_id old /\ m_content new = m_content old
          /\ m_memory_type new = m_memory_type old
          /\ m_project_id new = m_project_id old
          /\ m_created_at new = m_created_at old
          /\ (Some (m_id old) <> uuid_in memoryId -> new = old)
          /\ (new = old
              \/ (m_importance new = importance /\ (1 <= importance <= 10)%Z)))
       (memories s)
       (List.map (fun t => if String.eqb (m_id t) u
                           then reranked importance t else t) (memories s))).
    { clear Hsame. induction (memories s) as [|t l IH]; cbn [List.map];
        [constructor|].
      constructor; [cbv beta|exact IH].
      rewrite Hu.
      destruct (String.eqb_spec (m_id t) u) as [Heq|Hne].
      - cbn. repeat split; try reflexivity; try (intros; congruence).
        right. split; [reflexivity|exact Hin].
      - repeat split; try reflexivity; auto. }
    destruct res as [d [er|]]; unfold error, data, non_null, ret, throw.
    + destruct (code er =? "PGRST116"); cbn; repeat split; exact Hnew.
    + destruct d; cbn; repeat split; exact Hnew.
Qed.

(** The statement of [list_tasks], when no assignee is asked for,
    returns exactly the tasks of the project the reference denotes that
    have the requested status and priority (each when given and
    non-empty), newest first. *)
Theorem tasks_query_exact cur status priority s rows :
  tasks_query cur status priority None s = Rows rows ->
  (forall t,
      In t rows <->
      In t (tasks s)
      /\ t_project_id t = uuid_in cur
      /\ (forall v, status = Some v -> truthy v = true -> t_status t = v)
      /\ (forall v, priority = Some v -> truthy v = true -> t_priority t = v))
  /\ StronglySorted (fun a b => (t_created_at b <= t_created_at a)%Z) rows.
Proof.
  unfold tasks_query. intros Hq.
  apply order_rows in Hq. destruct Hq as (l1 & Hq & ->).
  split; [|apply sort_by_time_sorted].
  intros t. rewrite sort_rows_in.
  revert Hq. unfold when_truthy, eq_plain, where_, eq_uuid.
  destruct (uuid_in cur) as [u|];
    destruct status as [st|]; try destruct (truthy st) eqn:Hst;
    destruct priority as [pr|]; try destruct (truthy pr) eqn:Hpr;
    try discriminate; intros [= <-]; rewrite ?filter_In, ?opt_eqb_eq, ?String.eqb_eq;
    (split;
     [ intros H; repeat split; try tauto; intros v [= <-]; try tauto; congruence
     | intros (Hin & Hp & Hs & Hr); repeat split; auto ]).
Qed.

(** Asking [list_tasks] for an assignee always fails: the [tasks] table
    has no such column, so on a healthy store with a current project the
    statement is refused and the handler throws. *)
Theorem list_tasks_assignee_always_fails status priority assignee cur m :
  currentProjectId m = Some cur -> truthy cur = true -> is_uuid cur = true ->
  outage (store m) = None ->
  truthy assignee = true ->
  list_tasks status priority (Some assignee) m =
  (Rejected (JsError "column tasks.assignee does not exist"), m).
Proof.
  intros Hcur Ht Hu Hout Ha. destruct m as [held s]. cbn in *. subst held.
  unfold list_tasks, bind, get_currentProjectId, select.
  cbv beta iota zeta. cbn [currentProjectId store]. rewrite Ht.
  cbv beta iota zeta delta [negb]. cbn [currentProjectId store].
  unfold run, tasks_query. rewrite Hout.
  unfold when_truthy at 1. rewrite Ha.
  unfold when_truthy, eq_plain, where_, eq_uuid.
  unfold is_uuid in Hu. destruct (uuid_in cur) as [u|]; [|discriminate].
  destruct status as [st|]; try destruct (truthy st);
    destruct priority as [pr|]; try destruct (truthy pr); reflexivity.
Qed.

Lemma count_status_le v l : (count_status v l <= List.length l)%nat.
Proof. unfold count_status. apply filter_length_le. Qed.

(** The task summary of [get_project_context] counts every task in
    [total] and sorts the pending, in-progress and completed ones into
    their buckets; a cancelled task is in the total and in no bucket, so
    the buckets add up to the total less the cancelled tasks. *)
Theorem taskSummary_accounts l :
  Forall (fun t => In (t_status t) statuses) l ->
  total (taskSummary l) =
  (pending (taskSummary l) + in_progress (taskSummary l)
   + completed (taskSummary l) + count_status "cancelled" l)%nat.
Proof.
  unfold taskSummary, count_status. cbn [total pending in_progress completed].
  induction 1 as [|t l Hst _ IH]; [reflexivity|].
  cbn [filter List.length]. cbn in Hst.
  destruct Hst as [<-|[<-|[<-|[<-|[]]]]]; cbn; lia.
Qed.

(** With an explicit project id [get_project_context] never looks at the
    current project; with neither it throws before any query. *)
Theorem get_project_context_prefers_argument projectId held held' s :
  truthy projectId = true ->
  fst (get_project_context (Some projectId)
         {| currentProjectId := held; store := s |}) =
  fst (get_project_context (Some projectId)
         {| currentProjectId := held'; store := s |})
  /\ get_project_context None {| currentProjectId := None; store := s |} =
     (Rejected (JsError "No project ID provided and no current project set"),
      {| currentProjectId := None; store := s |}).
Proof.
  intros Hp. split; [|reflexivity].
  unfold get_project_context, bind, get_currentProjectId, select.
  cbv beta iota zeta. cbn [currentProjectId store].
  unfold or_opt. cbn [truthy_opt]. rewrite Hp. cbv beta iota. rewrite Hp.
  cbv beta iota zeta delta [negb]. cbn [currentProjectId store].
  destruct (run s (eq_uuid (fun p => Some (p_id p)) projectId (Rows (projects s))))
    as [d er].
  unfold single, error, data, throw_pg, throw, non_null, ret, succeed, fail.
  destruct er; [reflexivity|]. destruct d as [[|row [|]]|]; try reflexivity.
  cbv beta iota zeta. cbn [currentProjectId store].
  destruct (run s (recent_memories_query projectId s)) as [d2 [er2|]];
    [reflexivity|].
  cbv beta iota zeta. cbn [currentProjectId store].
  destruct (run s (project_tasks_query projectId s)) as [d3 [er3|]];
    [reflexivity|].
  destruct d3; reflexivity.
Qed.

(** The self-hosted [store_memory] keeps the reference and either leaves
    the store as it was or appends exactly one memory to the project the
    reference denotes, which is in the store: its content is the trimmed
    text, which is not empty, its importance the given one or 5, and its
    type the given one when that is not empty. *)
Theorem store_memory_all_or_nothing content memoryType importance m :
  let m' := snd (store_memory content memoryType importance m) in
  currentProjectId m' = currentProjectId m
  /\ (store m' = store m
      \/ exists cur row,
           currentProjectId m = Some cur
           /\ memories (store m') = (memories (store m) ++ [row])%list
           /\ projects (store m') = projects (store m)
           /\ tasks (store m') = tasks (store m)
           /\ m_project_id row = uuid_in cur
           /\ (exists project,
                  In project (projects (store m))
                  /\ m_project_id row = Some (p_id project))
           /\ m_content row = trim content /\ trim content <> ""
           /\ m_importance row = Remote.or_num importance 5
           /\ (1 <= m_importance row <= 10)%Z
           /\ m_memory_type row =
              match memoryType with
              | Some t => if truthy t then Some t else None
              | None => None
              end).
Proof.
  cbn zeta. destruct m as [held s].
  unfold store_memory, guarded, try_catch, bind, get_currentProjectId, inserting,
    settle.
  cbv beta iota zeta. cbn [currentProjectId store].
  destruct held as [cur|]; [|split; [reflexivity|now left]].
  destruct (truthy cur); cbn [negb]; [|split; [reflexivity|now left]].
  destruct (truthy (trim content)) eqn:Htrim; cbn [negb];
    [|split; [reflexivity|now left]].
  destruct (generateEmbedding content) as [v|t];
    [|split; [reflexivity|now left]].
  unfold insert_memory.
  cbn [ins_project_id ins_content ins_memory_type ins_importance
       currentProjectId store].
  destruct (outage s);
    [unfold single, error, data, fail; cbn; split; [reflexivity|now left]|].
  destruct (uuid_in cur) as [project|] eqn:Hcur;
    [|unfold single, error, data, fail; cbn; split; [reflexivity|now left]].
  destruct (mem project (List.map p_id (projects s))) eqn:Hproject;
    [|unfold single, error, data, fail; cbn; split; [reflexivity|now left]].
  destruct ((1 <=? Remote.or_num importance 5)%Z
            && (Remote.or_num importance 5 <=? 10)%Z)%bool eqn:Hb;
    [|unfold single, error, data, fail; cbn; split; [reflexivity|now left]].
  destruct (mem (gen_random_uuid (serial s)) (List.map m_id (memories s)));
    [unfold single, error, data, fail; cbn; split; [reflexivity|now left]|].
  cbn. split; [reflexivity|]. right.
  exists cur. eexists. split; [reflexivity|]. split; [reflexivity|].
  cbn. apply andb_true_iff in Hb. rewrite !Z.leb_le in Hb.
  apply truthy_true_iff in Htrim.
  assert (exists row, In row (projects s) /\ Some project = Some (p_id row))
    as Hin.
  { unfold mem in Hproject.
    apply existsb_exists in Hproject. destruct Hproject as (x & Hx & Heq).
    apply String.eqb_eq in Heq. subst x.
    apply in_map_iff in Hx. destruct Hx as (row & <- & Hrow). eauto. }
  do 2 (split; [reflexivity|]). split; [now rewrite ?Hcur|].
  split; [exact Hin|].
  repeat split; try assumption; lia.
Qed.

End Facts.

End DirectToolsFacts.

(** * Further runs of the self-hosted server on the sample stores *)

Module DirectToolsRuns.
Import Direct DirectFacts DirectTools DirectToolsFacts Demo.SelfHosted
  Samples.SelfHosted.

#[local] Existing Instance platform.
#[local] Existing Instance embedder.


Lemma break_down_task_failure_creates_nothing_witness :
  snd (break_down_task done_id None (machine (Some project_id) shop)) =
  machine (Some project_id) shop.
Proof.
  apply (break_down_task_failure_creates_nothing done_id None
           (machine (Some project_id) shop)
           (JsError "JSON object requested, multiple (or no) rows returned")).
  vm_compute. reflexivity.
Defined.

Lemma suggest_next_task_names_open_task_witness :
  snd (suggest_next_task None (machine (Some project_id) archive)) =
  machine (Some project_id) archive
  /\ forall t, In t (tasks archive) -> t_project_id t = Some project_id ->
               t_status t <> "pending" /\ t_status t <> "in_progress".
Proof.
  destruct (suggest_next_task_names_open_task None
              (machine (Some project_id) archive)
              (text_envelope "No pending tasks found. Great job!")
              project_id) as (Hsame & [(_ & Hnone)|(t & _ & _ & _ & He)]).
  - vm_compute. reflexivity.
  - reflexivity.
  - split; [exact Hsame|exact Hnone].
  - discriminate He.
Defined.

Lemma memories_query_exact_witness :
  In code_memo (memories library)
  /\ m_project_id code_memo = Some project_id
  /\ ~ In decision_memo [code_memo].
Proof.
  destruct (memories_query_exact project_id (Some "code") None library
              [code_memo]) as (Hexact & _).
  - vm_compute. reflexivity.
  - destruct (proj1 (Hexact code_memo) (or_introl eq_refl))
      as (Hin & Hproject & _).
    split; [exact Hin|split; [exact Hproject|]].
    intros [Heq|[]]. discriminate Heq.
Defined.

Lemma update_task_status_any_transition_witness :
  fst (update_task_status "EEEEEEEE-EEEE-4EEE-8EEE-EEEEEEEEEEEE" "pending" None
         (machine None library)) =
  Fulfilled (text_envelope "Task status updated to pending: Set up CI").
Proof.
  apply (update_task_status_any_transition
           "EEEEEEEE-EEEE-4EEE-8EEE-EEEEEEEEEEEE" "pending" None
           (machine None library) done_id done).
  - reflexivity.
  - vm_compute. reflexivity.
  - cbn. auto.
  - vm_compute. reflexivity.
Defined.

Lemma tasks_query_exact_witness :
  StronglySorted (fun a b => (t_created_at b <= t_created_at a)%Z)
    [routine; urgent].
Proof.
  apply (tasks_query_exact project_id (Some "pending") None library
           [routine; urgent]).
  vm_compute. reflexivity.
Defined.

Lemma list_tasks_assignee_always_fails_witness :
  list_tasks None None (Some "sam") (machine (Some project_id) library) =
  (Rejected (JsError "column tasks.assignee does not exist"),
   machine (Some project_id) library).
Proof.
  apply (list_tasks_assignee_always_fails None None "sam" project_id
           (machine (Some project_id) library)); reflexivity.
Defined.

Lemma taskSummary_accounts_witness :
  total (taskSummary (tasks library)) =
  (pending (taskSummary (tasks library))
   + in_progress (taskSummary (tasks library))
   + completed (taskSummary (tasks library))
   + count_status "cancelled" (tasks library))%nat.
Proof.
  apply (taskSummary_accounts (tasks library)).
  repeat (apply Forall_cons; [cbn; auto 10|]). apply Forall_nil.
Defined.

(** Ids are read in any spelling a [UUID] column accepts: the id of
    [done] in upper case addresses that task and no other, and the id
    of the memory [code_memo] without hyphens addresses that memory. *)
Lemma updates_read_any_spelling :
  List.map t_status
    (tasks (store (snd (update_task_status
                          "EEEEEEEE-EEEE-4EEE-8EEE-EEEEEEEEEEEE" "cancelled"
                          (Some "late") (machine None library))))) =
  ["pending"; "pending"; "cancelled"; "cancelled"]
  /\ List.map m_importance
       (memories (store (snd (update_memory_importance
                                "cccccccccccc4ccc8ccccccccccccccc" 9
                                (machine None library))))) = [9%Z; 7%Z].
Proof. split; vm_compute; reflexivity. Qed.

(** A reference and a dependency given without hyphens: the new task
    belongs to the project and depends on the task those texts denote,
    and the row holds both ids as the store prints them. *)
Lemma create_task_stores_ids_as_printed :
  let m := machine (Some bare_project_id) shop in
  let after :=
    snd (create_task "Deploy" None None
           (Some ["aaaaaaaaaaaa4aaa8aaaaaaaaaaaaaaa"]) m) in
  List.map (fun t => (t_title t, t_project_id t, t_dependencies t))
    (List.skipn 2 (tasks (store after))) =
  [("Deploy", Some project_id, Some [urgent_id])]
  /\ uuid_in bare_project_id = Some project_id
  /\ fst (set_current_project bare_project_id (machine None shop)) =
     Fulfilled (text_envelope
                  ("✅ Switched to project: Workspace" ++ nl
                   ++ "ID: " ++ project_id ++ nl ++ "Description: None")).
Proof. cbn zeta. repeat split; vm_compute; reflexivity. Qed.

(** [trim] strips every white space of the language, not the ASCII
    ones alone: a name or a content padded with U+00A0 or U+2003 is
    stored without the padding, and a name made of them is empty. *)
Lemma trim_strips_unicode_space :
  trim (no_break_space ++ " Alpha" ++ em_space ++ no_break_space) = "Alpha"
  /\ List.map p_name
       (projects (store (snd (create_project
                                (no_break_space ++ "Alpha" ++ em_space) None None
                                (machine None shop))))) =
     ["Workspace"; "Alpha"]
  /\ create_project (no_break_space ++ em_space) None None (machine None shop) =
     (Fulfilled (text_envelope "Error: Project name cannot be empty."),
      machine None shop)
  /\ List.map m_content
       (memories (store (snd (store_memory
                                (em_space ++ "use tabs" ++ no_break_space)
                                None None
                                (machine (Some project_id) shop))))) =
     ["use tabs"].
Proof. repeat split; vm_compute; reflexivity. Qed.

Lemma get_project_context_prefers_argument_witness :
  fst (get_project_context (Some project_id) (machine None library)) =
  fst (get_project_context (Some project_id) (machine (Some done_id) library)).
Proof.
  apply (get_project_context_prefers_argument project_id None (Some done_id)
           library).
  reflexivity.
Defined.

End DirectToolsRuns.
